(** * Manifest parsing (utils/dockerutil) and the closer helper (utils/closers)

    A shallow embedding of [dockerutil.go] and of [closers.Close], with the
    packages they import kept behind their interfaces:

    - [distribution.UnmarshalManifest] (docker/distribution) and
      [core.ParseSHA256Digest] (package core) are parameters of the
      embedding;
    - a Go result tuple [(manifest, digest, err)] is a Rocq triple whose
      interface and error components are options ([None] is Go's [nil]);
    - every call of [distribution.UnmarshalManifest] is recorded in a trace,
      so that the order of the attempts made by [ParseManifest] can be
      stated;
    - [closers.Close] runs on a state holding the resources it closes and
      the log it writes. *)

From Stdlib Require Import String Ascii List ZArith Lia Bool DecimalString.
From Stdlib Require Import Strings.Byte.
Import ListNotations.

Open Scope string_scope.
Open Scope Z_scope.

(** Go's [[]byte]. *)
Definition bytes := list byte.

(** A non-nil Go [error], identified with the message of its [Error()]
    method; a possibly nil [error] is an [option error]. *)
Definition error := string.

Definition isNil {A : Type} (x : option A) : bool :=
match x with
| None => true
| Some _ => false
end.

(** ** Package fmt *)
Module fmt.

Inductive arg :=
| Str (s : string)
| Int (z : Z).

(** [%d] of a Go [int]. *)
Definition decimal (z : Z) : string := NilZero.string_of_int (Z.to_int z).

(** One verb applied to one operand.  [%s] and [%w] print a string or an
    error, [%d] an integer; the other combinations print Go's bad-verb
    marker. *)
Definition verb (v : ascii) (a : arg) : string :=
match a with
| Str s =>
    if (Ascii.eqb v "s" || Ascii.eqb v "w" || Ascii.eqb v "v")%bool then s
    else "%!" ++ String v ("(string=" ++ s ++ ")")
| Int z =>
    if (Ascii.eqb v "d" || Ascii.eqb v "v")%bool then decimal z
    else "%!" ++ String v ("(int=" ++ decimal z ++ ")")
end.

Fixpoint Sprintf (format : string) (args : list arg) : string :=
match format with
| EmptyString => EmptyString
| String "%" (String "%" rest) => String "%" (Sprintf rest args)
| String "%" (String v rest) =>
    match args with
    | a :: args' => verb v a ++ Sprintf rest args'
    | [] => "%!" ++ String v ("(MISSING)" ++ Sprintf rest [])
    end
| String c rest => String c (Sprintf rest args)
end.

(** [fmt.Errorf]: the error whose message is the formatted string. *)
Definition Errorf (format : string) (args : list arg) : error :=
Sprintf format args.

End fmt.

(** ** Package io *)
Module io.

(** An [io.Reader] as [io.ReadAll] sees it: the bytes read until EOF or
    until the first failure, and that failure. *)
Record Reader := { ReadAll : bytes * option error }.

(** [bytes.NewReader]. *)
Definition NewReader (b : bytes) : Reader := {| ReadAll := (b, None) |}.

End io.

(** ** Package core *)
Module core.

(** Modelled from the spec: the declaration of [core.Digest] (package core
    is imported by dockerutil.go and is not part of the sources at hand).
    A digest is an algorithm and a hexadecimal value. *)
Record Digest := { algorithm : string; hex : string }.

(** [core.Digest{}] *)
Definition zero : Digest := {| algorithm := ""; hex := "" |}.

Definition SHA256 : string := "sha256".

Definition isLowerHex (c : ascii) : bool :=
let n := nat_of_ascii c in
((48 <=? n)%nat && (n <=? 57)%nat) || ((97 <=? n)%nat && (n <=? 102)%nat).

(** The hex value of a sha256 digest: 64 lowercase hex characters. *)
Definition validSHA256Hex (h : string) : bool :=
(String.length h =? 64)%nat && forallb isLowerHex (list_ascii_of_string h).

(** [cut s] splits [s] at its first colon, if it has one. *)
Fixpoint cut (s : string) : string * option string :=
match s with
| EmptyString => (EmptyString, None)
| String c rest =>
    if Ascii.eqb c ":" then (EmptyString, Some rest)
    else let '(before, after) := cut rest in (String c before, after)
end.

(** Modelled from the spec: [core.ParseSHA256Digest], which dockerutil.go
    calls and whose package is not part of the sources at hand.  The raw
    form of a digest is the algorithm, a colon and the hex value; the
    algorithm must be sha256 and the hex value must have the length and
    the character set of sha256.  Anything else is a malformed digest
    string, reported with the zero digest. *)
Definition ParseSHA256Digest (raw : string) : Digest * option error :=
match cut raw with
| (algo, Some h) =>
    if (algo =? SHA256)%string && validSHA256Hex h
    then ({| algorithm := SHA256; hex := h |}, None)
    else (zero, Some ("DigestFormatError: malformed digest " ++ raw))
| (_, None) => (zero, Some ("DigestFormatError: malformed digest " ++ raw))
end.

End core.

(** ** Packages of docker/distribution: the types dockerutil.go names *)
Module distribution.

Record Descriptor := {
  MediaType : string;
  Size : Z;
  Digest : string
}.

(** [distribution.Descriptor{}] *)
Definition noDescriptor : Descriptor :=
{| MediaType := ""; Size := 0; Digest := "" |}.

End distribution.

Module manifest.

Record Versioned := {
  SchemaVersion : Z;
  MediaType : string
}.

End manifest.

Module schema2.

Definition MediaTypeManifest : string :=
"application/vnd.docker.distribution.manifest.v2+json".

Record Manifest := {
  Versioned : manifest.Versioned;
  Config : distribution.Descriptor;
  Layers : list distribution.Descriptor
}.

Record DeserializedManifest := {
  Manifest_ : Manifest;
  canonical : bytes
}.

End schema2.

Module ocischema.

Record Manifest := {
  Versioned : manifest.Versioned;
  Config : distribution.Descriptor;
  Layers : list distribution.Descriptor
}.

Record DeserializedManifest := {
  Manifest_ : Manifest;
  canonical : bytes
}.

End ocischema.

Module manifestlist.

Definition MediaTypeManifestList : string :=
"application/vnd.docker.distribution.manifest.list.v2+json".

Record PlatformSpec := {
  Architecture : string;
  OS : string;
  Features : list string
}.

Record ManifestDescriptor := {
  Descriptor : distribution.Descriptor;
  Platform : PlatformSpec
}.

Record ManifestList := {
  Versioned : manifest.Versioned;
  Manifests : list ManifestDescriptor
}.

Record DeserializedManifestList := {
  ManifestList_ : ManifestList;
  canonical : bytes
}.

End manifestlist.

(** A non-nil value of the interface [distribution.Manifest]: one of the
    three concrete types dockerutil.go asserts, or any other
    implementation, of which only the interface's methods are known. *)
Inductive Manifest :=
| Schema2 (m : schema2.DeserializedManifest)
| OCISchema (m : ocischema.DeserializedManifest)
| ManifestList (m : manifestlist.DeserializedManifestList)
| Foreign (mediaType : string) (payload : bytes)
          (references : list distribution.Descriptor).

(** The comma-ok type assertions of a pointer type on a manifest; a nil
    interface holds no type and fails each of them. *)
Definition asSchema2 (m : option Manifest) : option schema2.DeserializedManifest :=
match m with
| Some (Schema2 d) => Some d
| _ => None
end.

Definition asOCISchema (m : option Manifest) : option ocischema.DeserializedManifest :=
match m with
| Some (OCISchema d) => Some d
| _ => None
end.

Definition asManifestList (m : option Manifest) : option manifestlist.DeserializedManifestList :=
match m with
| Some (ManifestList d) => Some d
| _ => None
end.

(** The method [References()] of the interface, as the three packages
    implement it: the config followed by the layers, or the descriptors of
    the listed manifests. *)
Definition References (m : Manifest) : list distribution.Descriptor :=
match m with
| Schema2 d =>
    schema2.Config (schema2.Manifest_ d) :: schema2.Layers (schema2.Manifest_ d)
| OCISchema d =>
    ocischema.Config (ocischema.Manifest_ d) :: ocischema.Layers (ocischema.Manifest_ d)
| ManifestList d =>
    map manifestlist.Descriptor
        (manifestlist.Manifests (manifestlist.ManifestList_ d))
| Foreign _ _ refs => refs
end.

(** ** Package dockerutil *)
Module dockerutil.

Definition _v2ManifestType : string :=
"application/vnd.docker.distribution.manifest.v2+json".
Definition _v2ManifestListType : string :=
"application/vnd.docker.distribution.manifest.list.v2+json".
Definition _ociManifestType : string :=
"application/vnd.oci.image.manifest.v1+json".
Definition _ociIndexType : string :=
"application/vnd.oci.image.index.v1+json".

(** One call of [distribution.UnmarshalManifest]: the media type asked for
    and the payload handed over. *)
Definition Call : Type := string * bytes.

(** Computations that call the unmarshaller: the calls made so far are
    threaded through. *)
Definition M (A : Type) : Type := list Call -> A * list Call.

Definition ret {A : Type} (a : A) : M A := fun t => (a, t).

Definition bind {A B : Type} (c : M A) (k : A -> M B) : M B :=
fun t => let (a, t') := c t in k a t'.

Notation "' p <- c ;; k" := (bind c (fun x => let 'p := x in k))
  (at level 61, p pattern, c at next level, right associativity).

(** What a computation returns, and the calls it makes, from an empty
    trace. *)
Definition returned {A : Type} (c : M A) : A := fst (c []).
Definition calls {A : Type} (c : M A) : list Call := snd (c []).

(** The result tuple of the parse functions. *)
Definition Result : Type := option Manifest * core.Digest * option error.

Definition manifestOf (r : Result) : option Manifest := fst (fst r).
Definition digestOf (r : Result) : core.Digest := snd (fst r).
Definition errOf (r : Result) : option error := snd r.

Section Imports.

(** [distribution.UnmarshalManifest(ctHeader, p)] of docker/distribution. *)
Variable UnmarshalManifest :
  string -> bytes -> option Manifest * distribution.Descriptor * option error.

(** [core.ParseSHA256Digest(raw)] of package core. *)
Variable ParseSHA256Digest : string -> core.Digest * option error.

Definition unmarshal (ctHeader : string) (p : bytes)
  : M (option Manifest * distribution.Descriptor * option error) :=
fun t => (UnmarshalManifest ctHeader p, (t ++ [(ctHeader, p)])%list).

(** ParseManifestV2 returns a parsed v2 manifest and its digest. *)
Definition ParseManifestV2 (bytes : bytes) : M Result :=
' (manifest, desc, err) <- unmarshal schema2.MediaTypeManifest bytes ;;
match err with
| Some err =>
    ret (None, core.zero, Some (fmt.Errorf "unmarshal manifest: %s" [fmt.Str err]))
| None =>
    match asSchema2 manifest with
    | None => ret (None, core.zero, Some "expected schema2.DeserializedManifest")
    | Some deserializedManifest =>
        let version :=
          manifest.SchemaVersion
            (schema2.Versioned (schema2.Manifest_ deserializedManifest)) in
        if negb (version =? 2) then
          ret (None, core.zero,
               Some (fmt.Errorf "unsupported manifest version: %d" [fmt.Int version]))
        else
          let '(d, err) := ParseSHA256Digest (distribution.Digest desc) in
          match err with
          | Some err =>
              ret (None, core.zero, Some (fmt.Errorf "parse digest: %s" [fmt.Str err]))
          | None => ret (manifest, d, None)
          end
    end
end.

(** ParseManifestV2List returns a parsed v2 manifest list and its digest. *)
Definition ParseManifestV2List (bytes : bytes) : M Result :=
' (manifestList, desc, err) <- unmarshal manifestlist.MediaTypeManifestList bytes ;;
match err with
| Some err =>
    ret (None, core.zero, Some (fmt.Errorf "unmarshal manifestlist: %s" [fmt.Str err]))
| None =>
    match asManifestList manifestList with
    | None =>
        ret (None, core.zero, Some "expected manifestlist.DeserializedManifestList")
    | Some deserializedManifestList =>
        let version :=
          manifest.SchemaVersion
            (manifestlist.Versioned
               (manifestlist.ManifestList_ deserializedManifestList)) in
        if negb (version =? 2) then
          ret (None, core.zero,
               Some (fmt.Errorf "unsupported manifest list version: %d" [fmt.Int version]))
        else
          let '(d, err) := ParseSHA256Digest (distribution.Digest desc) in
          match err with
          | Some err =>
              ret (None, core.zero, Some (fmt.Errorf "parse digest: %s" [fmt.Str err]))
          | None => ret (manifestList, d, None)
          end
    end
end.

(** ParseOCIManifest returns a parsed OCI manifest and its digest. *)
Definition ParseOCIManifest (bytes : bytes) : M Result :=
' (manifest, desc, err) <- unmarshal _ociManifestType bytes ;;
match err with
| Some err =>
    ret (None, core.zero, Some (fmt.Errorf "unmarshal oci manifest: %s" [fmt.Str err]))
| None =>
    match asOCISchema manifest with
    | None => ret (None, core.zero, Some "expected ocischema.DeserializedManifest")
    | Some deserializedManifest =>
        let version :=
          manifest.SchemaVersion
            (ocischema.Versioned (ocischema.Manifest_ deserializedManifest)) in
        if negb (version =? 2) then
          ret (None, core.zero,
               Some (fmt.Errorf "unsupported oci manifest version: %d" [fmt.Int version]))
        else
          let '(d, err) := ParseSHA256Digest (distribution.Digest desc) in
          match err with
          | Some err =>
              ret (None, core.zero, Some (fmt.Errorf "parse digest: %s" [fmt.Str err]))
          | None => ret (manifest, d, None)
          end
    end
end.

(** ParseOCIIndex returns a parsed OCI index and its digest. *)
Definition ParseOCIIndex (bytes : bytes) : M Result :=
' (index, desc, err) <- unmarshal _ociIndexType bytes ;;
match err with
| Some err =>
    ret (None, core.zero, Some (fmt.Errorf "unmarshal oci index: %s" [fmt.Str err]))
| None =>
    let '(d, err) := ParseSHA256Digest (distribution.Digest desc) in
    match err with
    | Some err =>
        ret (None, core.zero, Some (fmt.Errorf "parse digest: %s" [fmt.Str err]))
    | None => ret (index, d, None)
    end
end.

Definition ParseManifest (r : io.Reader) : M Result :=
let '(b, err) := io.ReadAll r in
match err with
| Some err => ret (None, core.zero, Some (fmt.Errorf "read: %s" [fmt.Str err]))
| None =>
    (* Try Docker v2 manifest first *)
    ' (manifest, d, err) <- ParseManifestV2 b ;;
    if isNil err then ret (manifest, d, err) else
    (* Try OCI manifest *)
    ' (manifest, d, err) <- ParseOCIManifest b ;;
    if isNil err then ret (manifest, d, err) else
    (* Try Docker v2 manifest list *)
    ' (manifest, d, err) <- ParseManifestV2List b ;;
    if isNil err then ret (manifest, d, err) else
    (* Try OCI index *)
    ParseOCIIndex b
end.

(** The loop of [GetManifestReferences]: [refs] is the slice appended to so
    far; an error abandons it and returns a nil slice. *)
Fixpoint referencesLoop (descs : list distribution.Descriptor)
  (refs : list core.Digest) : list core.Digest * option error :=
match descs with
| [] => (refs, None)
| desc :: rest =>
    let '(d, err) := ParseSHA256Digest (distribution.Digest desc) in
    match err with
    | Some err => ([], Some (fmt.Errorf "parse digest: %w" [fmt.Str err]))
    | None => referencesLoop rest (refs ++ [d])%list
    end
end.

(** GetManifestReferences returns a list of references by a V2 or OCI
    manifest.  The argument is a non-nil manifest. *)
Definition GetManifestReferences (manifest : Manifest)
  : list core.Digest * option error :=
referencesLoop (References manifest) [].

End Imports.

Definition GetSupportedManifestTypes : string :=
fmt.Sprintf "%s,%s,%s,%s"
  [fmt.Str _v2ManifestType; fmt.Str _v2ManifestListType;
   fmt.Str _ociManifestType; fmt.Str _ociIndexType].

End dockerutil.

(** ** Package closers *)

(** How a Go call ends: it returns its results, or it panics and the panic
    unwinds into the caller. *)
Inductive Outcome (A : Type) :=
| Returned (a : A)
| Panicked (v : string).

Arguments Returned {A} a.
Arguments Panicked {A} v.

(** The failure a call hands to its caller by unwinding, if any. *)
Definition propagated {A : Type} (o : Outcome A) : option string :=
match o with
| Returned _ => None
| Panicked v => Some v
end.

Module zap.

Inductive Level := DebugLevel | ErrorLevel.

Inductive Field :=
| Error (err : error)
| Stack (key : string).

Record Entry := {
  level : Level;
  msg : string;
  fields : list Field
}.

End zap.

Module closers.

(** What a call of the helper does to the outside: calls of the closer's
    [Close] method and log entries, in order. *)
Inductive Event :=
| CloseCalled
| Logged (e : zap.Entry).

Section Resources.

(** The state of the resources that closers release. *)
Variable R : Type.

(** A non-nil [io.Closer]: its method [Close] acts on the resources and
    returns an error or nil. *)
Record Closer := { Close_ : R -> option error * R }.

Record State := {
  heap : R;
  events : list Event
}.

Definition Action (A : Type) : Type := State -> Outcome A * State.

Definition ret {A : Type} (a : A) : Action A := fun st => (Returned a, st).

Definition bind {A B : Type} (c : Action A) (k : A -> Action B) : Action B :=
fun st =>
  match c st with
  | (Returned a, st') => k a st'
  | (Panicked v, st') => (Panicked v, st')
  end.

Notation "x <- c ;; k" := (bind c (fun x => k))
  (at level 61, c at next level, right associativity).

(** The method call [closer.Close()]: on a nil interface it panics. *)
Definition callClose (closer : option Closer) : Action (option error) :=
fun st =>
  match closer with
  | None =>
      (Panicked "runtime error: invalid memory address or nil pointer dereference", st)
  | Some c =>
      let '(err, h) := Close_ c (heap st) in
      (Returned err, {| heap := h; events := (events st ++ [CloseCalled])%list |})
  end.

(** [log.Desugar().Debug] and [log.Desugar().Error]. *)
Definition log (lvl : zap.Level) (msg : string) (fields : list zap.Field)
  : Action unit :=
fun st =>
  (Returned tt,
   {| heap := heap st;
      events := (events st ++
                 [Logged {| zap.level := lvl; zap.msg := msg; zap.fields := fields |}])%list |}).

(** Close closes the closer. A message will be logged. *)
Definition Close (closer : option Closer) : Action unit :=
if negb (isNil closer) then
  err <- callClose closer ;;
  match err with
  | Some e =>
      (* Check if this is a file already closed error *)
      let errMsg := e in
      if (errMsg =? "file already closed")%string
         || (errMsg =? "close: file already closed")%string
      then
        log zap.DebugLevel
          "attempted to close already closed file (this is usually harmless)"
          [zap.Error e]
      else
        log zap.ErrorLevel "failed to close a closer"
          [zap.Error e; zap.Stack "stack"]
  | None => ret tt
  end
else ret tt.

(** The entry [Close] writes for a close error. *)
Definition entryFor (e : error) : zap.Entry :=
if (e =? "file already closed")%string || (e =? "close: file already closed")%string
then {| zap.level := zap.DebugLevel;
        zap.msg := "attempted to close already closed file (this is usually harmless)";
        zap.fields := [zap.Error e] |}
else {| zap.level := zap.ErrorLevel;
        zap.msg := "failed to close a closer";
        zap.fields := [zap.Error e; zap.Stack "stack"] |}.

(** Propagation of a close failure, for one closer and one state: when
    the closer's [Close] fails, the failure reaches the caller of the
    helper. *)
Definition failurePropagates (closer : Closer) (st : State) : Prop :=
forall e, fst (Close_ closer (heap st)) = Some e ->
  propagated (fst (Close (Some closer) st)) <> None.

End Resources.

Arguments Close_ {R} c h.
Arguments heap {R} s.
Arguments events {R} s.
Arguments Close {R} closer st.
Arguments failurePropagates {R} closer st.

(** A file-like resource: [closed] tells whether it was released, [dirty]
    whether written data is still waiting for the disk. *)
Record File := { closed : bool; dirty : bool }.

(** A closer in the manner of a file handle with a name: closing twice
    reports that the file is already closed, with the operation and the
    name in front. *)
Definition fileCloser (name : string) : Closer File :=
{| Close_ := fun f =>
     if closed f
     then (Some ("close " ++ name ++ ": file already closed"), f)
     else (None, {| closed := true; dirty := dirty f |}) |}.

(** A closer whose [Close] flushes: when the data cannot be written out
    the close fails with an input/output error and the data stays
    unwritten. *)
Definition failingFlushCloser (name : string) : Closer File :=
{| Close_ := fun f =>
     if dirty f
     then (Some ("close " ++ name ++ ": input/output error"),
           {| closed := true; dirty := true |})
     else (None, {| closed := true; dirty := false |}) |}.

(** A closer reporting exactly the bare message the helper looks for. *)
Definition bareClosedCloser : Closer File :=
{| Close_ := fun f => (Some "file already closed", f) |}.

End closers.

(** ** Payloads

    The four payloads of dockerutil_test.go, and three short ones.  They are
    written with single quotes where the JSON text has double quotes;
    [payload] puts the double quotes back. *)
Module payloads.

Fixpoint requote (s : string) : string :=
match s with
| EmptyString => EmptyString
| String c rest =>
    String (if Ascii.eqb c "'" then ascii_of_nat 34 else c) (requote rest)
end.

Definition payload (s : string) : bytes := list_byte_of_string (requote s).

Definition testManifestListBytes : bytes := payload
"{
	'schemaVersion': 2,
	'mediaType': 'application/vnd.docker.distribution.manifest.list.v2+json',
	'manifests': [
	   {
		  'mediaType': 'application/vnd.docker.distribution.manifest.v2+json',
		  'size': 985,
		  'digest': 'sha256:1a9ec845ee94c202b2d5da74a24f0ed2058318bfa9879fa541efaecba272e86b',
		  'platform': {
			 'architecture': 'amd64',
			 'os': 'linux',
			 'features': [
				'sse4'
			 ]
		  }
	   },
	   {
		  'mediaType': 'application/vnd.docker.distribution.manifest.v2+json',
		  'size': 2392,
		  'digest': 'sha256:6346340964309634683409684360934680934608934608934608934068934608',
		  'platform': {
			 'architecture': 'sun4m',
			 'os': 'sunos'
		  }
	   }
	]
 }".

Definition testManifestBytes : bytes := payload
"{
	'schemaVersion': 2,
	'mediaType': 'application/vnd.docker.distribution.manifest.v2+json',
	'config': {
	   'mediaType': 'application/vnd.docker.container.image.v1+json',
	   'size': 985,
	   'digest': 'sha256:1a9ec845ee94c202b2d5da74a24f0ed2058318bfa9879fa541efaecba272e86b'
	},
	'layers': [
	   {
		  'mediaType': 'application/vnd.docker.image.rootfs.diff.tar.gzip',
		  'size': 153263,
		  'digest': 'sha256:62d8908bee94c202b2d35224a221aaa2058318bfa9879fa541efaecba272331b'
	   }
	]
 }".

Definition testOciManifestBytes : bytes := payload
"{
	'schemaVersion': 2,
	'mediaType': 'application/vnd.oci.image.manifest.v1+json',
	'config': {
	   'mediaType': 'application/vnd.oci.image.config.v1+json',
	   'size': 985,
	   'digest': 'sha256:1a9ec845ee94c202b2d5da74a24f0ed2058318bfa9879fa541efaecba272e86b'
	},
	'layers': [
	   {
		  'mediaType': 'application/vnd.oci.image.layer.v1.tar+gzip',
		  'size': 153263,
		  'digest': 'sha256:62d8908bee94c202b2d35224a221aaa2058318bfa9879fa541efaecba272331b'
	   }
	]
 }".

Definition testOciIndexBytes : bytes := payload
"{
	'schemaVersion': 2,
	'mediaType': 'application/vnd.oci.image.index.v1+json',
	'manifests': [
	   {
		  'mediaType': 'application/vnd.oci.image.manifest.v1+json',
		  'size': 985,
		  'digest': 'sha256:1a9ec845ee94c202b2d5da74a24f0ed2058318bfa9879fa541efaecba272e86b',
		  'platform': {
			 'architecture': 'amd64',
			 'os': 'linux'
		  }
	   },
	   {
		  'mediaType': 'application/vnd.oci.image.manifest.v1+json',
		  'size': 2392,
		  'digest': 'sha256:6346340964309634683409684360934680934608934608934608934068934608',
		  'platform': {
			 'architecture': 'arm64',
			 'os': 'linux'
		  }
	   }
	]
 }".

(** Text that is not JSON. *)
Definition notJSON : bytes := payload "not json".

(** An OCI index and a manifest list that declare schema version 3. *)
Definition ociIndexV3 : bytes := payload
"{'schemaVersion': 3, 'mediaType': 'application/vnd.oci.image.index.v1+json', 'manifests': []}".

Definition manifestListV3 : bytes := payload
"{'schemaVersion': 3, 'mediaType': 'application/vnd.docker.distribution.manifest.list.v2+json', 'manifests': []}".

End payloads.

(** ** An executable instance of the imported packages

    The unmarshallers that docker/distribution registers for the four media
    types: each decodes the payload, checks the media type the payload
    declares, and describes the payload by its digest.  They are written
    over any JSON decoder and any hash function; for running them, both are
    tabulated on the payloads above, and a payload outside the table is
    treated as undecodable. *)
Module vendor.

(** The fields the four manifest structs read from a JSON object; a field
    the object lacks keeps its zero value. *)
Record Document := {
  schemaVersion : Z;
  mediaType : string;
  config : distribution.Descriptor;
  layers : list distribution.Descriptor;
  manifests : list manifestlist.ManifestDescriptor
}.

Record Entry := {
  text : bytes;
  decoded : Document + error;
  sha256 : string
}.

Definition descriptor (mediaType : string) (size : Z) (digest : string)
  : distribution.Descriptor :=
{| distribution.MediaType := mediaType;
   distribution.Size := size;
   distribution.Digest := digest |}.

Definition listed (mediaType : string) (size : Z) (digest : string)
  (arch os : string) (features : list string) : manifestlist.ManifestDescriptor :=
{| manifestlist.Descriptor := descriptor mediaType size digest;
   manifestlist.Platform :=
     {| manifestlist.Architecture := arch;
        manifestlist.OS := os;
        manifestlist.Features := features |} |}.

Definition digestA : string :=
"sha256:1a9ec845ee94c202b2d5da74a24f0ed2058318bfa9879fa541efaecba272e86b".
Definition digestB : string :=
"sha256:6346340964309634683409684360934680934608934608934608934068934608".
Definition digestC : string :=
"sha256:62d8908bee94c202b2d35224a221aaa2058318bfa9879fa541efaecba272331b".

Definition table : list Entry :=
[ {| text := payloads.testManifestListBytes;
     decoded := inl
       {| schemaVersion := 2;
          mediaType := "application/vnd.docker.distribution.manifest.list.v2+json";
          config := distribution.noDescriptor;
          layers := [];
          manifests :=
            [ listed "application/vnd.docker.distribution.manifest.v2+json" 985
                digestA "amd64" "linux" ["sse4"];
              listed "application/vnd.docker.distribution.manifest.v2+json" 2392
                digestB "sun4m" "sunos" [] ] |};
     sha256 := "84cf4ab8315b659d9f4ac9fd2409c5d23f4ba7f3998b1369f3e15c986b491a4e" |};
  {| text := payloads.testManifestBytes;
     decoded := inl
       {| schemaVersion := 2;
          mediaType := "application/vnd.docker.distribution.manifest.v2+json";
          config := descriptor "application/vnd.docker.container.image.v1+json" 985 digestA;
          layers :=
            [ descriptor "application/vnd.docker.image.rootfs.diff.tar.gzip" 153263
                digestC ];
          manifests := [] |};
     sha256 := "df439dfa143e9970cb4134c0d5360c9f8abe6c0293469f39ff46c282691fe238" |};
  {| text := payloads.testOciManifestBytes;
     decoded := inl
       {| schemaVersion := 2;
          mediaType := "application/vnd.oci.image.manifest.v1+json";
          config := descriptor "application/vnd.oci.image.config.v1+json" 985 digestA;
          layers :=
            [ descriptor "application/vnd.oci.image.layer.v1.tar+gzip" 153263 digestC ];
          manifests := [] |};
     sha256 := "d1c6c11db60950b5e19f19144fba17c97a66a1d0d3a1c9716728751004587f61" |};
  {| text := payloads.testOciIndexBytes;
     decoded := inl
       {| schemaVersion := 2;
          mediaType := "application/vnd.oci.image.index.v1+json";
          config := distribution.noDescriptor;
          layers := [];
          manifests :=
            [ listed "application/vnd.oci.image.manifest.v1+json" 985
                digestA "amd64" "linux" [];
              listed "application/vnd.oci.image.manifest.v1+json" 2392
                digestB "arm64" "linux" [] ] |};
     sha256 := "bd7987f755b093fa61c9ae11ee2145a83127bdc0c03d1997b6a3bb319c78d0c2" |};
  {| text := payloads.notJSON;
     decoded := inr "invalid character 'o' in literal null (expecting 'u')";
     sha256 := "7ccfa1fbf3940e6f0c0375d87c0f9235a50514e14cb427bdfaf5077987b26ccf" |};
  {| text := payloads.ociIndexV3;
     decoded := inl
       {| schemaVersion := 3;
          mediaType := "application/vnd.oci.image.index.v1+json";
          config := distribution.noDescriptor;
          layers := [];
          manifests := [] |};
     sha256 := "75e9ce37de166a9f62b641f255a35121390f888077513bf160998b69aa3845f5" |};
  {| text := payloads.manifestListV3;
     decoded := inl
       {| schemaVersion := 3;
          mediaType := "application/vnd.docker.distribution.manifest.list.v2+json";
          config := distribution.noDescriptor;
          layers := [];
          manifests := [] |};
     sha256 := "8a35827230d66a54bbcd50875889f2a3330f7e490cb6496a867b86164d2279fa" |} ].

Definition sameBytes (a b : bytes) : bool :=
(string_of_list_byte a =? string_of_list_byte b)%string.

Fixpoint lookup (p : bytes) (t : list Entry) : option Entry :=
match t with
| [] => None
| e :: rest => if sameBytes p (text e) then Some e else lookup p rest
end.

(** [json.Unmarshal] into the manifest structs, on the table. *)
Definition tableJSON (p : bytes) : Document + error :=
match lookup p table with
| Some e => decoded e
| None => inr "payload outside the table"
end.

(** [digest.FromBytes], on the table. *)
Definition tableDigest (p : bytes) : string :=
match lookup p table with
| Some e => "sha256:" ++ sha256 e
| None => "sha256:"
end.

Section Codec.

(** [json.Unmarshal] into the manifest structs, and [digest.FromBytes]. *)
Variable jsonUnmarshal : bytes -> Document + error.
Variable FromBytes : bytes -> string.

Definition versioned (doc : Document) : manifest.Versioned :=
{| manifest.SchemaVersion := schemaVersion doc;
   manifest.MediaType := mediaType doc |}.

Definition describe (mediaType : string) (p : bytes) : distribution.Descriptor :=
{| distribution.MediaType := mediaType;
   distribution.Size := Z.of_nat (List.length p);
   distribution.Digest := FromBytes p |}.

Definition Unmarshalled : Type :=
option Manifest * distribution.Descriptor * option error.

Definition failed (err : error) : Unmarshalled :=
(None, distribution.noDescriptor, Some err).

(** Registered by package schema2 (manifest/schema2/manifest.go): the
    declared media type must be the schema2 one. *)
Definition schema2Func (b : bytes) : Unmarshalled :=
match jsonUnmarshal b with
| inr err => failed err
| inl doc =>
    if negb (mediaType doc =? schema2.MediaTypeManifest)%string then
      failed (fmt.Errorf "mediaType in manifest should be '%s' not '%s'"
                [fmt.Str schema2.MediaTypeManifest; fmt.Str (mediaType doc)])
    else
      (Some (Schema2
         {| schema2.Manifest_ :=
              {| schema2.Versioned := versioned doc;
                 schema2.Config := config doc;
                 schema2.Layers := layers doc |};
            schema2.canonical := b |}),
       describe schema2.MediaTypeManifest b, None)
end.

(** Registered by package ocischema (manifest/ocischema/manifest.go): the
    media type may be left out. *)
Definition ocischemaFunc (b : bytes) : Unmarshalled :=
match jsonUnmarshal b with
| inr err => failed err
| inl doc =>
    if negb (mediaType doc =? "")%string
       && negb (mediaType doc =? dockerutil._ociManifestType)%string then
      failed (fmt.Errorf "if present, mediaType in manifest should be '%s' not '%s'"
                [fmt.Str dockerutil._ociManifestType; fmt.Str (mediaType doc)])
    else
      (Some (OCISchema
         {| ocischema.Manifest_ :=
              {| ocischema.Versioned := versioned doc;
                 ocischema.Config := config doc;
                 ocischema.Layers := layers doc |};
            ocischema.canonical := b |}),
       describe dockerutil._ociManifestType b, None)
end.

Definition asList (doc : Document) (b : bytes) : Manifest :=
ManifestList
  {| manifestlist.ManifestList_ :=
       {| manifestlist.Versioned := versioned doc;
          manifestlist.Manifests := manifests doc |};
     manifestlist.canonical := b |}.

(** Registered by package manifestlist (manifest/manifestlist/manifestlist.go)
    for the manifest list type. *)
Definition manifestListFunc (b : bytes) : Unmarshalled :=
match jsonUnmarshal b with
| inr err => failed err
| inl doc =>
    if negb (mediaType doc =? manifestlist.MediaTypeManifestList)%string then
      failed (fmt.Errorf "mediaType in manifest list should be '%s' not '%s'"
                [fmt.Str manifestlist.MediaTypeManifestList; fmt.Str (mediaType doc)])
    else (Some (asList doc b), describe manifestlist.MediaTypeManifestList b, None)
end.

(** Registered by package manifestlist for the OCI index type: the same
    struct as a manifest list, and the media type may be left out. *)
Definition imageIndexFunc (b : bytes) : Unmarshalled :=
match jsonUnmarshal b with
| inr err => failed err
| inl doc =>
    if negb (mediaType doc =? "")%string
       && negb (mediaType doc =? dockerutil._ociIndexType)%string then
      failed (fmt.Errorf "if present, mediaType in image index should be '%s' not '%s'"
                [fmt.Str dockerutil._ociIndexType; fmt.Str (mediaType doc)])
    else (Some (asList doc b), describe dockerutil._ociIndexType b, None)
end.

(** [distribution.UnmarshalManifest]: the unmarshaller registered for the
    media type asked for. *)
Definition UnmarshalManifest (ctHeader : string) (p : bytes) : Unmarshalled :=
if (ctHeader =? schema2.MediaTypeManifest)%string then schema2Func p
else if (ctHeader =? dockerutil._ociManifestType)%string then ocischemaFunc p
else if (ctHeader =? manifestlist.MediaTypeManifestList)%string then manifestListFunc p
else if (ctHeader =? dockerutil._ociIndexType)%string then imageIndexFunc p
else failed (fmt.Errorf "unsupported manifest media type and no default available: %s"
               [fmt.Str ctHeader]).

End Codec.

(** The media type a manifest reports through [Payload()]. *)
Definition payloadMediaType (m : Manifest) : string :=
match m with
| Schema2 _ => schema2.MediaTypeManifest
| OCISchema _ => dockerutil._ociManifestType
| ManifestList d =>
    let declared :=
      manifest.MediaType (manifestlist.Versioned (manifestlist.ManifestList_ d)) in
    if (declared =? "")%string then dockerutil._ociIndexType else declared
| Foreign mediaType _ _ => mediaType
end.

(** The unmarshaller over the table. *)
Definition Unmarshal : string -> bytes -> Unmarshalled :=
UnmarshalManifest tableJSON tableDigest.

(** [dockerutil.ParseManifest] over the table, on a reader of [p]. *)
Definition ParseManifest (p : bytes) : dockerutil.Result :=
dockerutil.returned
  (dockerutil.ParseManifest Unmarshal core.ParseSHA256Digest (io.NewReader p)).

End vendor.

(** ** Notions used in the statements *)

(** The schema version a manifest carries, when its type has one. *)
Definition schemaVersionOf (m : Manifest) : option Z :=
match m with
| Schema2 d =>
    Some (manifest.SchemaVersion (schema2.Versioned (schema2.Manifest_ d)))
| OCISchema d =>
    Some (manifest.SchemaVersion (ocischema.Versioned (ocischema.Manifest_ d)))
| ManifestList d =>
    Some (manifest.SchemaVersion
            (manifestlist.Versioned (manifestlist.ManifestList_ d)))
| Foreign _ _ _ => None
end.

(** The manifests that the schema2 and the ocischema unmarshallers build
    from a decoded document and the payload it was decoded from. *)
Definition builtSchema2 (doc : vendor.Document) (b : bytes) : Manifest :=
Schema2
  {| schema2.Manifest_ :=
       {| schema2.Versioned := vendor.versioned doc;
          schema2.Config := vendor.config doc;
          schema2.Layers := vendor.layers doc |};
     schema2.canonical := b |}.

Definition builtOCISchema (doc : vendor.Document) (b : bytes) : Manifest :=
OCISchema
  {| ocischema.Manifest_ :=
       {| ocischema.Versioned := vendor.versioned doc;
          ocischema.Config := vendor.config doc;
          ocischema.Layers := vendor.layers doc |};
     ocischema.canonical := b |}.

(** A parse function accepts a payload when it returns a nil error, and
    rejects it otherwise. *)
Definition accepts (parse : bytes -> dockerutil.M dockerutil.Result) (b : bytes) : Prop :=
dockerutil.errOf (dockerutil.returned (parse b)) = None.

Definition rejects (parse : bytes -> dockerutil.M dockerutil.Result) (b : bytes) : Prop :=
dockerutil.errOf (dockerutil.returned (parse b)) <> None.

(** The four attempts of [ParseManifest], with the media type each one
    asks the unmarshaller for. *)
Definition attempts : list string :=
[ schema2.MediaTypeManifest; dockerutil._ociManifestType;
  manifestlist.MediaTypeManifestList; dockerutil._ociIndexType ].

(** The calls made by the first [k] attempts on payload [b]. *)
Definition tried (k : nat) (b : bytes) : list dockerutil.Call :=
map (fun ct => (ct, b)) (firstn k attempts).

Section Statements.

Variable UnmarshalManifest :
  string -> bytes -> option Manifest * distribution.Descriptor * option error.
Variable ParseSHA256Digest : string -> core.Digest * option error.

(** What a result tuple may be when it comes out of an attempt on payload
    [b] with media type [ct]: with an error, nothing else; without one, the
    manifest the unmarshaller produced and the digest parsed from the
    descriptor it produced. *)
Definition allOrNothing (ct : string) (b : bytes) (res : dockerutil.Result) : Prop :=
(dockerutil.errOf res <> None ->
   dockerutil.manifestOf res = None /\ dockerutil.digestOf res = core.zero) /\
(dockerutil.errOf res = None ->
   exists desc,
     UnmarshalManifest ct b = (dockerutil.manifestOf res, desc, None) /\
     ParseSHA256Digest (distribution.Digest desc) = (dockerutil.digestOf res, None)).

(** The four variants: the media type and the parse function of each. *)
Definition variants : list (string * (bytes -> dockerutil.M dockerutil.Result)) :=
[ (schema2.MediaTypeManifest,
   dockerutil.ParseManifestV2 UnmarshalManifest ParseSHA256Digest);
  (dockerutil._ociManifestType,
   dockerutil.ParseOCIManifest UnmarshalManifest ParseSHA256Digest);
  (manifestlist.MediaTypeManifestList,
   dockerutil.ParseManifestV2List UnmarshalManifest ParseSHA256Digest);
  (dockerutil._ociIndexType,
   dockerutil.ParseOCIIndex UnmarshalManifest ParseSHA256Digest) ].

(** All four attempts reject the payload. *)
Definition allRejected (b : bytes) : Prop :=
rejects (dockerutil.ParseManifestV2 UnmarshalManifest ParseSHA256Digest) b /\
rejects (dockerutil.ParseOCIManifest UnmarshalManifest ParseSHA256Digest) b /\
rejects (dockerutil.ParseManifestV2List UnmarshalManifest ParseSHA256Digest) b /\
rejects (dockerutil.ParseOCIIndex UnmarshalManifest ParseSHA256Digest) b.

(** The statement that the error of a payload all four attempts reject is
    an aggregate one: it is not the error of the OCI index attempt. *)
Definition aggregateError (r : io.Reader) : Prop :=
forall b, io.ReadAll r = (b, None) -> allRejected b ->
  dockerutil.errOf
    (dockerutil.returned
       (dockerutil.ParseManifest UnmarshalManifest ParseSHA256Digest r)) <>
  dockerutil.errOf
    (dockerutil.returned
       (dockerutil.ParseOCIIndex UnmarshalManifest ParseSHA256Digest b)).

End Statements.

(** * Facts about formatting *)

Lemma append_empty_r (s : string) : s ++ "" = s.
Proof.
  induction s as [|c s IH]; simpl; [reflexivity | now rewrite IH].
Qed.

(** A format that ends in [%s] or [%w] after a prefix without verbs prints
    the prefix and then the operand. *)
Lemma Sprintf_prefix (c : ascii) (rest : string) (args : list fmt.arg) :
  c <> "%"%char ->
  fmt.Sprintf (String c rest) args = String c (fmt.Sprintf rest args).
Proof.
  intros Hc. simpl.
  destruct c as [[] [] [] [] [] [] [] []]; try reflexivity.
  now elim Hc.
Qed.

(** * Properties of package dockerutil *)

Section Dockerutil.

Import dockerutil.

Variable U :
  string -> bytes -> option Manifest * distribution.Descriptor * option error.
Variable P : string -> core.Digest * option error.

Local Notation "'V2'" := (dockerutil.ParseManifestV2 U P).
Local Notation "'OCIm'" := (dockerutil.ParseOCIManifest U P).
Local Notation "'V2L'" := (dockerutil.ParseManifestV2List U P).
Local Notation "'OCIi'" := (dockerutil.ParseOCIIndex U P).
Local Notation "'Resolve'" := (dockerutil.ParseManifest U P).

(** Case analysis along the branches of one parse function. *)
Ltac branches :=
  repeat match goal with
  | |- context [U ?ct ?b] =>
      let m := fresh "m" in let desc := fresh "desc" in let err := fresh "err" in
      let E := fresh "EU" in
      destruct (U ct b) as [[m desc] err] eqn:E; simpl
  | |- context [P ?s] =>
      let d := fresh "d" in let err := fresh "err" in let E := fresh "EP" in
      destruct (P s) as [d err] eqn:E; simpl
  | |- context [match ?x with Some _ => _ | None => _ end] => destruct x; simpl
  | |- context [match ?x with Schema2 _ => _ | _ => _ end] => destruct x; simpl
  | |- context [match ?x with OCISchema _ => _ | _ => _ end] => destruct x; simpl
  | |- context [match ?x with ManifestList _ => _ | _ => _ end] => destruct x; simpl
  | |- context [if negb (?v =? 2) then _ else _] =>
      let E := fresh "Ev" in destruct (v =? 2) eqn:E; simpl
  end.

Ltac unfold_parsers :=
  unfold dockerutil.ParseManifestV2, dockerutil.ParseOCIManifest,
    dockerutil.ParseManifestV2List, dockerutil.ParseOCIIndex,
    dockerutil.bind, dockerutil.unmarshal, dockerutil.ret,
    asSchema2, asOCISchema, asManifestList.

(** Each parse function calls the unmarshaller once, with its own media
    type and the payload it was given. *)
Lemma ParseManifestV2_run (b : bytes) (t : list dockerutil.Call) :
  V2 b t = (returned (V2 b), (t ++ [(schema2.MediaTypeManifest, b)])%list).
Proof.
  unfold returned. unfold_parsers. simpl. branches; reflexivity.
Qed.

Lemma ParseOCIManifest_run (b : bytes) (t : list dockerutil.Call) :
  OCIm b t = (returned (OCIm b), (t ++ [(dockerutil._ociManifestType, b)])%list).
Proof.
  unfold returned. unfold_parsers. simpl. branches; reflexivity.
Qed.

Lemma ParseManifestV2List_run (b : bytes) (t : list dockerutil.Call) :
  V2L b t = (returned (V2L b), (t ++ [(manifestlist.MediaTypeManifestList, b)])%list).
Proof.
  unfold returned. unfold_parsers. simpl. branches; reflexivity.
Qed.

Lemma ParseOCIIndex_run (b : bytes) (t : list dockerutil.Call) :
  OCIi b t = (returned (OCIi b), (t ++ [(dockerutil._ociIndexType, b)])%list).
Proof.
  unfold returned. unfold_parsers. simpl. branches; reflexivity.
Qed.

(** The result of each parse function is all or nothing. *)
Lemma ParseManifestV2_allOrNothing (b : bytes) :
  allOrNothing U P schema2.MediaTypeManifest b (returned (V2 b)).
Proof.
  unfold allOrNothing, returned. unfold_parsers. simpl.
  branches; split; intros; try congruence; try (split; reflexivity);
    eexists; split; reflexivity || eassumption.
Qed.

Lemma ParseOCIManifest_allOrNothing (b : bytes) :
  allOrNothing U P dockerutil._ociManifestType b (returned (OCIm b)).
Proof.
  unfold allOrNothing, returned. unfold_parsers. simpl.
  branches; split; intros; try congruence; try (split; reflexivity);
    eexists; split; reflexivity || eassumption.
Qed.

Lemma ParseManifestV2List_allOrNothing (b : bytes) :
  allOrNothing U P manifestlist.MediaTypeManifestList b (returned (V2L b)).
Proof.
  unfold allOrNothing, returned. unfold_parsers. simpl.
  branches; split; intros; try congruence; try (split; reflexivity);
    eexists; split; reflexivity || eassumption.
Qed.

Lemma ParseOCIIndex_allOrNothing (b : bytes) :
  allOrNothing U P dockerutil._ociIndexType b (returned (OCIi b)).
Proof.
  unfold allOrNothing, returned. unfold_parsers. simpl.
  branches; split; intros; try congruence; try (split; reflexivity);
    eexists; split; reflexivity || eassumption.
Qed.

(** [ParseManifest] on a reader that fails. *)
Lemma ParseManifest_read_error (r : io.Reader) (b : bytes) (e : error) :
  io.ReadAll r = (b, Some e) ->
  Resolve r [] = ((None, core.zero, Some ("read: " ++ e)), []).
Proof.
  intros HR. unfold dockerutil.ParseManifest. rewrite HR.
  unfold ret. simpl. now rewrite append_empty_r.
Qed.

(** [ParseManifest] on a reader that yields [b]: the chain of attempts,
    with the calls made. *)
Lemma ParseManifest_chain (r : io.Reader) (b : bytes) :
  io.ReadAll r = (b, None) ->
  Resolve r [] =
    if isNil (errOf (returned (V2 b))) then (returned (V2 b), tried 1 b)
    else if isNil (errOf (returned (OCIm b))) then (returned (OCIm b), tried 2 b)
    else if isNil (errOf (returned (V2L b))) then (returned (V2L b), tried 3 b)
    else (returned (OCIi b), tried 4 b).
Proof.
  intros HR. unfold dockerutil.ParseManifest. rewrite HR.
  unfold dockerutil.bind.
  rewrite ParseManifestV2_run.
  destruct (returned (V2 b)) as [[m1 d1] e1]. unfold dockerutil.errOf at 1. simpl snd.
  destruct e1 as [e1|]; cbn [isNil]; [|reflexivity].
  rewrite ParseOCIManifest_run.
  destruct (returned (OCIm b)) as [[m2 d2] e2]. unfold dockerutil.errOf at 1. simpl snd.
  destruct e2 as [e2|]; cbn [isNil]; [|reflexivity].
  rewrite ParseManifestV2List_run.
  destruct (returned (V2L b)) as [[m3 d3] e3]. unfold dockerutil.errOf at 1. simpl snd.
  destruct e3 as [e3|]; cbn [isNil]; [|reflexivity].
  rewrite ParseOCIIndex_run. reflexivity.
Qed.

(** The result of [ParseManifest] is the result of one of the four
    attempts on the bytes read. *)
Lemma ParseManifest_is_an_attempt (r : io.Reader) (b : bytes) :
  io.ReadAll r = (b, None) ->
  (returned (Resolve r) = returned (V2 b) \/
   returned (Resolve r) = returned (OCIm b)) \/
  (returned (Resolve r) = returned (V2L b) \/
   returned (Resolve r) = returned (OCIi b)).
Proof.
  intros HR. unfold returned at 1 3 5 7. rewrite (ParseManifest_chain r b HR).
  destruct (isNil (errOf (returned (V2 b)))); [now left; left|].
  destruct (isNil (errOf (returned (OCIm b)))); [now left; right|].
  destruct (isNil (errOf (returned (V2L b)))); [now right; left| now right; right].
Qed.

Lemma isNil_accepts (parse : bytes -> M Result) (b : bytes) :
  isNil (errOf (returned (parse b))) = true <-> accepts parse b.
Proof.
  unfold accepts. destruct (errOf (returned (parse b))); simpl; split; congruence.
Qed.

Lemma isNil_rejects (parse : bytes -> M Result) (b : bytes) :
  isNil (errOf (returned (parse b))) = false <-> rejects parse b.
Proof.
  unfold rejects. destruct (errOf (returned (parse b))); simpl; split; congruence.
Qed.

(** C3: [ParseManifest] asks the unmarshaller for the four schemas in the
    fixed order V2 manifest, OCI manifest, V2 manifest list, OCI index; it
    returns the result of the first attempt that succeeds and makes no
    call after it; when the first three fail it returns the result of the
    fourth. *)
Theorem ParseManifest_fixed_order (r : io.Reader) (b : bytes) :
  io.ReadAll r = (b, None) ->
  (accepts V2 b /\
   returned (Resolve r) = returned (V2 b) /\
   calls (Resolve r) = [(schema2.MediaTypeManifest, b)]) \/
  (rejects V2 b /\ accepts OCIm b /\
   returned (Resolve r) = returned (OCIm b) /\
   calls (Resolve r) =
     [(schema2.MediaTypeManifest, b); (_ociManifestType, b)]) \/
  (rejects V2 b /\ rejects OCIm b /\ accepts V2L b /\
   returned (Resolve r) = returned (V2L b) /\
   calls (Resolve r) =
     [(schema2.MediaTypeManifest, b); (_ociManifestType, b);
      (manifestlist.MediaTypeManifestList, b)]) \/
  (rejects V2 b /\ rejects OCIm b /\ rejects V2L b /\
   returned (Resolve r) = returned (OCIi b) /\
   calls (Resolve r) =
     [(schema2.MediaTypeManifest, b); (_ociManifestType, b);
      (manifestlist.MediaTypeManifestList, b); (_ociIndexType, b)]).
Proof.
  intros HR.
  unfold returned at 1 3 5 7, calls. rewrite (ParseManifest_chain r b HR).
  destruct (isNil (errOf (returned (V2 b)))) eqn:E1.
  { left. apply isNil_accepts in E1. now repeat split. }
  apply isNil_rejects in E1. right.
  destruct (isNil (errOf (returned (OCIm b)))) eqn:E2.
  { left. apply isNil_accepts in E2. now repeat split. }
  apply isNil_rejects in E2. right.
  destruct (isNil (errOf (returned (V2L b)))) eqn:E3.
  { left. apply isNil_accepts in E3. now repeat split. }
  apply isNil_rejects in E3. right. now repeat split.
Qed.

(** The error of the OCI index attempt names that attempt or the digest
    step. *)
Lemma ParseOCIIndex_error (b : bytes) (e : error) :
  errOf (returned (OCIi b)) = Some e ->
  exists cause,
    e = "unmarshal oci index: " ++ cause \/ e = "parse digest: " ++ cause.
Proof.
  unfold returned. unfold_parsers. simpl.
  branches; unfold errOf; simpl; intros HE; inversion HE; subst;
    eexists; rewrite append_empty_r; [left | right]; reflexivity.
Qed.

(** C2 (amended): when all four attempts fail, [ParseManifest] returns the
    result of the fourth attempt as it is: its error is the error of
    [ParseOCIIndex], which names the OCI index unmarshalling or the digest
    parsing of that attempt.  No aggregate error is built. *)
Theorem ParseManifest_reports_last_attempt (r : io.Reader) (b : bytes) :
  io.ReadAll r = (b, None) ->
  allRejected U P b ->
  returned (Resolve r) = returned (OCIi b) /\
  exists cause,
    errOf (returned (Resolve r)) = Some ("unmarshal oci index: " ++ cause) \/
    errOf (returned (Resolve r)) = Some ("parse digest: " ++ cause).
Proof.
  intros HR (R1 & R2 & R3 & R4).
  assert (HE : returned (Resolve r) = returned (OCIi b)).
  { unfold returned at 1. rewrite (ParseManifest_chain r b HR).
    apply isNil_rejects in R1, R2, R3. now rewrite R1, R2, R3. }
  split; [exact HE|]. rewrite HE.
  unfold rejects in R4.
  destruct (errOf (returned (OCIi b))) as [e|] eqn:E4; [|congruence].
  destruct (ParseOCIIndex_error b e E4) as [cause [Hc|Hc]]; subst e;
    exists cause; [left | right]; reflexivity.
Qed.

(** A payload that exactly one attempt accepts resolves to the result of
    that attempt. *)
Lemma unique_acceptor (r : io.Reader) (b : bytes) :
  io.ReadAll r = (b, None) ->
  (accepts V2 b -> returned (Resolve r) = returned (V2 b)) /\
  (rejects V2 b -> accepts OCIm b -> returned (Resolve r) = returned (OCIm b)) /\
  (rejects V2 b -> rejects OCIm b -> accepts V2L b ->
     returned (Resolve r) = returned (V2L b)) /\
  (rejects V2 b -> rejects OCIm b -> rejects V2L b ->
     returned (Resolve r) = returned (OCIi b)).
Proof.
  intros HR. unfold returned at 1 3 5 7. rewrite (ParseManifest_chain r b HR).
  repeat split; intros;
    repeat match goal with
    | H : accepts _ _ |- _ => apply isNil_accepts in H; rewrite H
    | H : rejects _ _ |- _ => apply isNil_rejects in H; rewrite H
    end; reflexivity.
Qed.

(** A result without an error carries a digest that the digest parser
    returned without an error. *)
Lemma successful_digest_parsed (r : io.Reader) (b : bytes) (res : Result) :
  In res [ returned (Resolve r); returned (V2 b); returned (V2L b);
           returned (OCIm b); returned (OCIi b) ] ->
  errOf res = None ->
  exists raw, P raw = (digestOf res, None).
Proof.
  assert (four : forall p x,
    (x = returned (V2 p) \/ x = returned (OCIm p)) \/
    (x = returned (V2L p) \/ x = returned (OCIi p)) ->
    errOf x = None -> exists raw, P raw = (digestOf x, None)).
  { intros p x [[->| ->]|[->| ->]] Hok.
    - destruct (proj2 (ParseManifestV2_allOrNothing p) Hok) as (desc & _ & HP).
      now exists (distribution.Digest desc).
    - destruct (proj2 (ParseOCIManifest_allOrNothing p) Hok) as (desc & _ & HP).
      now exists (distribution.Digest desc).
    - destruct (proj2 (ParseManifestV2List_allOrNothing p) Hok) as (desc & _ & HP).
      now exists (distribution.Digest desc).
    - destruct (proj2 (ParseOCIIndex_allOrNothing p) Hok) as (desc & _ & HP).
      now exists (distribution.Digest desc). }
  intros [<-|[<-|[<-|[<-|[<-|[]]]]]]; try (apply (four b); tauto).
  destruct (io.ReadAll r) as [p [e|]] eqn:HR.
  - unfold returned. rewrite (ParseManifest_read_error r p e HR). discriminate.
  - apply (four p). apply ParseManifest_is_an_attempt, HR.
Qed.

(** C5: every parse function is all or nothing.  A result with an error
    carries a nil manifest and the zero digest; a result without an error
    carries the manifest the unmarshaller produced in one of the four
    attempts and the digest parsed from the descriptor of that attempt. *)
Theorem parse_all_or_nothing (r : io.Reader) (b : bytes) (res : Result) :
  In res [ returned (Resolve r); returned (V2 b); returned (V2L b);
           returned (OCIm b); returned (OCIi b) ] ->
  (errOf res <> None -> manifestOf res = None /\ digestOf res = core.zero) /\
  (errOf res = None ->
     exists ct p desc,
       In ct attempts /\
       U ct p = (manifestOf res, desc, None) /\
       P (distribution.Digest desc) = (digestOf res, None)).
Proof.
  assert (step : forall ct p x, In ct attempts -> allOrNothing U P ct p x ->
    (errOf x <> None -> manifestOf x = None /\ digestOf x = core.zero) /\
    (errOf x = None ->
       exists ct p desc,
         In ct attempts /\
         U ct p = (manifestOf x, desc, None) /\
         P (distribution.Digest desc) = (digestOf x, None))).
  { intros ct p x Hct [Herr Hok]. split; [exact Herr|].
    intros Hn. destruct (Hok Hn) as (desc & HU & HP).
    exists ct, p, desc. auto. }
  assert (four : forall p x,
    (x = returned (V2 p) \/ x = returned (OCIm p)) \/
    (x = returned (V2L p) \/ x = returned (OCIi p)) ->
    (errOf x <> None -> manifestOf x = None /\ digestOf x = core.zero) /\
    (errOf x = None ->
       exists ct p desc,
         In ct attempts /\
         U ct p = (manifestOf x, desc, None) /\
         P (distribution.Digest desc) = (digestOf x, None))).
  { intros p x [[->| ->]|[->| ->]].
    - apply (step schema2.MediaTypeManifest p); [simpl; tauto|].
      apply ParseManifestV2_allOrNothing.
    - apply (step _ociManifestType p); [simpl; tauto|].
      apply ParseOCIManifest_allOrNothing.
    - apply (step manifestlist.MediaTypeManifestList p); [simpl; tauto|].
      apply ParseManifestV2List_allOrNothing.
    - apply (step _ociIndexType p); [simpl; tauto|].
      apply ParseOCIIndex_allOrNothing. }
  intros [<-|[<-|[<-|[<-|[<-|[]]]]]]; try (apply (four b); tauto).
  destruct (io.ReadAll r) as [p [e|]] eqn:HR.
  - unfold returned. rewrite (ParseManifest_read_error r p e HR). simpl.
    split; [now split | discriminate].
  - apply (four p). apply ParseManifest_is_an_attempt, HR.
Qed.

(** An attempt whose media type the unmarshaller refuses for the payload
    fails and hands back no manifest. *)
Lemma refused_attempt_fails (b : bytes) (ct : string) (parse : bytes -> M Result) :
  In (ct, parse) (variants U P) ->
  snd (U ct b) <> None ->
  rejects parse b /\ manifestOf (returned (parse b)) = None.
Proof.
  unfold variants, rejects, returned.
  intros [E|[E|[E|[E|[]]]]]; inversion E; subst ct parse; clear E;
    unfold_parsers; simpl;
    destruct (U _ b) as [[m desc] [e|]]; simpl; intros Hn;
    try congruence; (split; [discriminate | reflexivity]).
Qed.

(** The three parse functions that assert the type of the manifest reject
    a manifest whose schema version is not 2. *)
Lemma ParseManifestV2_version_gate (b : bytes) (m : Manifest)
  (desc : distribution.Descriptor) :
  U schema2.MediaTypeManifest b = (Some m, desc, None) ->
  schemaVersionOf m <> Some 2 ->
  rejects V2 b.
Proof.
  unfold rejects, returned. unfold_parsers. simpl. intros HU Hv. rewrite HU.
  destruct m as [dm| | |]; simpl; try discriminate.
  simpl in Hv.
  destruct (Z.eqb_spec
    (manifest.SchemaVersion (schema2.Versioned (schema2.Manifest_ dm))) 2) as [E|E];
    simpl; [congruence | discriminate].
Qed.

Lemma ParseOCIManifest_version_gate (b : bytes) (m : Manifest)
  (desc : distribution.Descriptor) :
  U _ociManifestType b = (Some m, desc, None) ->
  schemaVersionOf m <> Some 2 ->
  rejects OCIm b.
Proof.
  unfold rejects, returned. unfold_parsers. simpl. intros HU Hv. rewrite HU.
  destruct m as [|dm| |]; simpl; try discriminate.
  simpl in Hv.
  destruct (Z.eqb_spec
    (manifest.SchemaVersion (ocischema.Versioned (ocischema.Manifest_ dm))) 2) as [E|E];
    simpl; [congruence | discriminate].
Qed.

Lemma ParseManifestV2List_version_gate (b : bytes) (m : Manifest)
  (desc : distribution.Descriptor) :
  U manifestlist.MediaTypeManifestList b = (Some m, desc, None) ->
  schemaVersionOf m <> Some 2 ->
  rejects V2L b.
Proof.
  unfold rejects, returned. unfold_parsers. simpl. intros HU Hv. rewrite HU.
  destruct m as [| |dm|]; simpl; try discriminate.
  simpl in Hv.
  destruct (Z.eqb_spec
    (manifest.SchemaVersion
       (manifestlist.Versioned (manifestlist.ManifestList_ dm))) 2) as [E|E];
    simpl; [congruence | discriminate].
Qed.

(** [ParseOCIIndex] has no such gate: whatever the unmarshaller accepts
    under the OCI index type is returned, once its digest parses. *)
Lemma ParseOCIIndex_no_version_gate (b : bytes) (m : option Manifest)
  (desc : distribution.Descriptor) (d : core.Digest) :
  U _ociIndexType b = (m, desc, None) ->
  P (distribution.Digest desc) = (d, None) ->
  returned (OCIi b) = (m, d, None).
Proof.
  unfold returned. unfold_parsers. simpl. intros HU HP. now rewrite HU, HP.
Qed.

(** What [ParseManifestV2] and [ParseOCIManifest] return for a version 2
    manifest of their type. *)
Lemma ParseManifestV2_accepts (b : bytes) (dm : schema2.DeserializedManifest)
  (desc : distribution.Descriptor) (d : core.Digest) :
  U schema2.MediaTypeManifest b = (Some (Schema2 dm), desc, None) ->
  manifest.SchemaVersion (schema2.Versioned (schema2.Manifest_ dm)) = 2 ->
  P (distribution.Digest desc) = (d, None) ->
  returned (V2 b) = (Some (Schema2 dm), d, None).
Proof.
  unfold returned. unfold_parsers. simpl. intros HU Hv HP.
  now rewrite HU, Hv, HP.
Qed.

Lemma ParseOCIManifest_accepts (b : bytes) (dm : ocischema.DeserializedManifest)
  (desc : distribution.Descriptor) (d : core.Digest) :
  U _ociManifestType b = (Some (OCISchema dm), desc, None) ->
  manifest.SchemaVersion (ocischema.Versioned (ocischema.Manifest_ dm)) = 2 ->
  P (distribution.Digest desc) = (d, None) ->
  returned (OCIm b) = (Some (OCISchema dm), d, None).
Proof.
  unfold returned. unfold_parsers. simpl. intros HU Hv HP.
  now rewrite HU, Hv, HP.
Qed.

(** What [ParseManifestV2List] returns for a version 2 list. *)
Lemma ParseManifestV2List_accepts (b : bytes)
  (dm : manifestlist.DeserializedManifestList)
  (desc : distribution.Descriptor) (d : core.Digest) :
  U manifestlist.MediaTypeManifestList b = (Some (ManifestList dm), desc, None) ->
  manifest.SchemaVersion (manifestlist.Versioned (manifestlist.ManifestList_ dm)) = 2 ->
  P (distribution.Digest desc) = (d, None) ->
  returned (V2L b) = (Some (ManifestList dm), d, None).
Proof.
  unfold returned. unfold_parsers. simpl. intros HU Hv HP.
  now rewrite HU, Hv, HP.
Qed.

End Dockerutil.

(** * The parse functions over the registered unmarshallers *)

Section Registered.

Import dockerutil.

Variable dec : bytes -> vendor.Document + error.
Variable h : bytes -> string.
Variable P : string -> core.Digest * option error.

Local Notation "'lib'" := (vendor.UnmarshalManifest dec h).

Lemma lib_schema2 (b : bytes) :
  lib schema2.MediaTypeManifest b = vendor.schema2Func dec h b.
Proof. reflexivity. Qed.

Lemma lib_ocischema (b : bytes) :
  lib _ociManifestType b = vendor.ocischemaFunc dec h b.
Proof. reflexivity. Qed.

Lemma lib_manifestlist (b : bytes) :
  lib manifestlist.MediaTypeManifestList b = vendor.manifestListFunc dec h b.
Proof. reflexivity. Qed.

Lemma lib_index (b : bytes) :
  lib _ociIndexType b = vendor.imageIndexFunc dec h b.
Proof. reflexivity. Qed.

(** Each registered unmarshaller refuses a payload that declares a media
    type other than its own. *)
Lemma declared_mismatch_refused (ct : string) (b : bytes) (doc : vendor.Document) :
  In ct attempts ->
  dec b = inl doc ->
  vendor.mediaType doc <> "" ->
  vendor.mediaType doc <> ct ->
  snd (lib ct b) <> None.
Proof.
  intros Hct Hdec Hne Hct'.
  assert (E1 : (vendor.mediaType doc =? "")%string = false)
    by now apply String.eqb_neq.
  assert (E2 : (vendor.mediaType doc =? ct)%string = false)
    by now apply String.eqb_neq.
  destruct Hct as [<-|[<-|[<-|[<-|[]]]]].
  - rewrite lib_schema2. unfold vendor.schema2Func. rewrite Hdec, E2. discriminate.
  - rewrite lib_ocischema. unfold vendor.ocischemaFunc. rewrite Hdec, E1, E2.
    discriminate.
  - rewrite lib_manifestlist. unfold vendor.manifestListFunc. rewrite Hdec, E2.
    discriminate.
  - rewrite lib_index. unfold vendor.imageIndexFunc. rewrite Hdec, E1, E2.
    discriminate.
Qed.

Lemma variants_attempts (U : string -> bytes -> vendor.Unmarshalled)
  (ct : string) (parse : bytes -> M Result) :
  In (ct, parse) (variants U P) -> In ct attempts.
Proof.
  unfold variants, attempts.
  intros [E|[E|[E|[E|[]]]]]; inversion E; simpl; tauto.
Qed.

(** So the attempt for a variant fails on a payload that declares the media
    type of another one. *)
Lemma declared_mismatch_rejected (ct : string) (parse : bytes -> M Result)
  (b : bytes) (doc : vendor.Document) :
  In (ct, parse) (variants lib P) ->
  dec b = inl doc ->
  vendor.mediaType doc <> "" ->
  vendor.mediaType doc <> ct ->
  rejects parse b /\ manifestOf (returned (parse b)) = None.
Proof.
  intros Hin Hdec Hne Hct.
  apply (refused_attempt_fails lib P b ct parse Hin).
  apply (declared_mismatch_refused ct b doc); auto.
  exact (variants_attempts lib ct parse Hin).
Qed.

(** A payload that declares the OCI index type resolves to the manifest of
    the OCI index attempt. *)
Lemma oci_index_resolves (r : io.Reader) (b : bytes) (doc : vendor.Document)
  (d : core.Digest) :
  io.ReadAll r = (b, None) ->
  dec b = inl doc ->
  vendor.mediaType doc = _ociIndexType ->
  P (h b) = (d, None) ->
  returned (ParseManifest lib P r) = (Some (vendor.asList doc b), d, None).
Proof.
  intros HR Hdec Hmt HP.
  assert (Hne : vendor.mediaType doc <> "") by (rewrite Hmt; discriminate).
  destruct (unique_acceptor lib P r b HR) as (_ & _ & _ & H4).
  rewrite H4.
  - apply (ParseOCIIndex_no_version_gate lib P b _ (vendor.describe h _ociIndexType b)).
    + rewrite lib_index. unfold vendor.imageIndexFunc.
      rewrite Hdec, Hmt. reflexivity.
    + exact HP.
  - apply (declared_mismatch_rejected schema2.MediaTypeManifest _ b doc);
      [simpl; tauto | assumption | assumption | rewrite Hmt; discriminate].
  - apply (declared_mismatch_rejected _ociManifestType _ b doc);
      [simpl; tauto | assumption | assumption | rewrite Hmt; discriminate].
  - apply (declared_mismatch_rejected manifestlist.MediaTypeManifestList _ b doc);
      [simpl; tauto | assumption | assumption | rewrite Hmt; discriminate].
Qed.

(** A payload that declares the manifest list type and schema version 2
    resolves to the manifest of the manifest list attempt. *)
Lemma manifest_list_resolves (r : io.Reader) (b : bytes) (doc : vendor.Document)
  (d : core.Digest) :
  io.ReadAll r = (b, None) ->
  dec b = inl doc ->
  vendor.mediaType doc = manifestlist.MediaTypeManifestList ->
  vendor.schemaVersion doc = 2 ->
  P (h b) = (d, None) ->
  returned (ParseManifest lib P r) = (Some (vendor.asList doc b), d, None).
Proof.
  intros HR Hdec Hmt Hv HP.
  assert (Hne : vendor.mediaType doc <> "") by (rewrite Hmt; discriminate).
  destruct (unique_acceptor lib P r b HR) as (_ & _ & H3 & _).
  assert (HL : returned (ParseManifestV2List lib P b)
               = (Some (vendor.asList doc b), d, None)).
  { apply (ParseManifestV2List_accepts lib P b _
             (vendor.describe h manifestlist.MediaTypeManifestList b)).
    - rewrite lib_manifestlist. unfold vendor.manifestListFunc.
      rewrite Hdec, Hmt. reflexivity.
    - exact Hv.
    - exact HP. }
  rewrite H3.
  - exact HL.
  - apply (declared_mismatch_rejected schema2.MediaTypeManifest _ b doc);
      [simpl; tauto | assumption | assumption | rewrite Hmt; discriminate].
  - apply (declared_mismatch_rejected _ociManifestType _ b doc);
      [simpl; tauto | assumption | assumption | rewrite Hmt; discriminate].
  - unfold accepts. now rewrite HL.
Qed.

(** A payload that declares the Docker v2 manifest type and schema version
    2 resolves to the manifest of the first attempt. *)
Lemma docker_v2_resolves (r : io.Reader) (b : bytes) (doc : vendor.Document)
  (d : core.Digest) :
  io.ReadAll r = (b, None) ->
  dec b = inl doc ->
  vendor.mediaType doc = schema2.MediaTypeManifest ->
  vendor.schemaVersion doc = 2 ->
  P (h b) = (d, None) ->
  returned (ParseManifest lib P r) = (Some (builtSchema2 doc b), d, None).
Proof.
  intros HR Hdec Hmt Hv HP.
  destruct (unique_acceptor lib P r b HR) as (H1 & _).
  assert (HL : returned (ParseManifestV2 lib P b)
               = (Some (builtSchema2 doc b), d, None)).
  { apply (ParseManifestV2_accepts lib P b _
             (vendor.describe h schema2.MediaTypeManifest b)).
    - rewrite lib_schema2. unfold vendor.schema2Func.
      rewrite Hdec, Hmt. reflexivity.
    - exact Hv.
    - exact HP. }
  rewrite H1; [exact HL|]. unfold accepts. now rewrite HL.
Qed.

(** A payload that declares the OCI manifest type and schema version 2
    resolves to the manifest of the OCI manifest attempt. *)
Lemma oci_manifest_resolves (r : io.Reader) (b : bytes) (doc : vendor.Document)
  (d : core.Digest) :
  io.ReadAll r = (b, None) ->
  dec b = inl doc ->
  vendor.mediaType doc = _ociManifestType ->
  vendor.schemaVersion doc = 2 ->
  P (h b) = (d, None) ->
  returned (ParseManifest lib P r) = (Some (builtOCISchema doc b), d, None).
Proof.
  intros HR Hdec Hmt Hv HP.
  assert (Hne : vendor.mediaType doc <> "") by (rewrite Hmt; discriminate).
  destruct (unique_acceptor lib P r b HR) as (_ & H2 & _).
  assert (HL : returned (ParseOCIManifest lib P b)
               = (Some (builtOCISchema doc b), d, None)).
  { apply (ParseOCIManifest_accepts lib P b _
             (vendor.describe h _ociManifestType b)).
    - rewrite lib_ocischema. unfold vendor.ocischemaFunc.
      rewrite Hdec, Hmt. reflexivity.
    - exact Hv.
    - exact HP. }
  rewrite H2.
  - exact HL.
  - apply (declared_mismatch_rejected schema2.MediaTypeManifest _ b doc);
      [simpl; tauto | assumption | assumption | rewrite Hmt; discriminate].
  - unfold accepts. now rewrite HL.
Qed.

(** A payload that declares one of the three types with a version check,
    and a schema version other than 2, is rejected by all four attempts. *)
Lemma wrong_version_rejected (r : io.Reader) (b : bytes) (doc : vendor.Document) :
  io.ReadAll r = (b, None) ->
  dec b = inl doc ->
  In (vendor.mediaType doc)
     [ schema2.MediaTypeManifest; _ociManifestType;
       manifestlist.MediaTypeManifestList ] ->
  vendor.schemaVersion doc <> 2 ->
  allRejected lib P b /\
  errOf (returned (ParseManifest lib P r)) <> None.
Proof.
  intros HR Hdec Hin Hv.
  assert (Hone : forall ct parse, In (ct, parse) (variants lib P) ->
            vendor.mediaType doc <> "" -> vendor.mediaType doc <> ct ->
            rejects parse b).
  { intros ct parse Hc Hne Hct.
    exact (proj1 (declared_mismatch_rejected ct parse b doc Hc Hdec Hne Hct)). }
  assert (HA : allRejected lib P b).
  { unfold allRejected.
    destruct Hin as [Hmt|[Hmt|[Hmt|[]]]]; symmetry in Hmt.
    - repeat split.
      + apply (ParseManifestV2_version_gate lib P b (builtSchema2 doc b)
                 (vendor.describe h schema2.MediaTypeManifest b)).
        * rewrite lib_schema2. unfold vendor.schema2Func.
          rewrite Hdec, Hmt. reflexivity.
        * simpl. congruence.
      + apply (Hone _ociManifestType); [simpl; tauto| |]; rewrite Hmt; discriminate.
      + apply (Hone manifestlist.MediaTypeManifestList); [simpl; tauto| |];
          rewrite Hmt; discriminate.
      + apply (Hone _ociIndexType); [simpl; tauto| |]; rewrite Hmt; discriminate.
    - repeat split.
      + apply (Hone schema2.MediaTypeManifest); [simpl; tauto| |];
          rewrite Hmt; discriminate.
      + apply (ParseOCIManifest_version_gate lib P b (builtOCISchema doc b)
                 (vendor.describe h _ociManifestType b)).
        * rewrite lib_ocischema. unfold vendor.ocischemaFunc.
          rewrite Hdec, Hmt. reflexivity.
        * simpl. congruence.
      + apply (Hone manifestlist.MediaTypeManifestList); [simpl; tauto| |];
          rewrite Hmt; discriminate.
      + apply (Hone _ociIndexType); [simpl; tauto| |]; rewrite Hmt; discriminate.
    - repeat split.
      + apply (Hone schema2.MediaTypeManifest); [simpl; tauto| |];
          rewrite Hmt; discriminate.
      + apply (Hone _ociManifestType); [simpl; tauto| |]; rewrite Hmt; discriminate.
      + apply (ParseManifestV2List_version_gate lib P b (vendor.asList doc b)
                 (vendor.describe h manifestlist.MediaTypeManifestList b)).
        * rewrite lib_manifestlist. unfold vendor.manifestListFunc.
          rewrite Hdec, Hmt. reflexivity.
        * simpl. congruence.
      + apply (Hone _ociIndexType); [simpl; tauto| |]; rewrite Hmt; discriminate. }
  split; [exact HA|].
  destruct HA as (R1 & R2 & R3 & R4).
  destruct (unique_acceptor lib P r b HR) as (_ & _ & _ & H4).
  rewrite (H4 R1 R2 R3). exact R4.
Qed.

End Registered.

(** * The resolver *)

(** C4: a payload that exactly one of the four variants accepts resolves to
    the result of that variant, wherever the variant stands in the order
    of the attempts.  An attempt whose media type the unmarshaller refuses
    for the payload fails without a manifest.  Over the registered
    unmarshallers, the media type and the schema version a payload
    declares decide the variant:
    - a payload that declares the OCI index media type resolves to the
      manifest of the OCI index attempt, which reports the OCI index media
      type, while the manifest list attempt rejects it;
    - the attempt for a variant rejects every payload that declares the
      media type of another one;
    - a payload that declares the Docker v2 manifest type, the OCI manifest
      type or the Docker manifest list type, and schema version 2, resolves
      to the manifest its own unmarshaller builds from it, which reports
      the declared type, and every other attempt rejects it;
    - a payload that declares one of these three types and another schema
      version is rejected by all four attempts. *)
Theorem ParseManifest_unique_variant
  (U : string -> bytes -> option Manifest * distribution.Descriptor * option error)
  (P : string -> core.Digest * option error)
  (r : io.Reader) (b : bytes) :
  io.ReadAll r = (b, None) ->
  (accepts (dockerutil.ParseManifestV2 U P) b ->
   rejects (dockerutil.ParseOCIManifest U P) b ->
   rejects (dockerutil.ParseManifestV2List U P) b ->
   rejects (dockerutil.ParseOCIIndex U P) b ->
   dockerutil.returned (dockerutil.ParseManifest U P r)
   = dockerutil.returned (dockerutil.ParseManifestV2 U P b)) /\
  (rejects (dockerutil.ParseManifestV2 U P) b ->
   accepts (dockerutil.ParseOCIManifest U P) b ->
   rejects (dockerutil.ParseManifestV2List U P) b ->
   rejects (dockerutil.ParseOCIIndex U P) b ->
   dockerutil.returned (dockerutil.ParseManifest U P r)
   = dockerutil.returned (dockerutil.ParseOCIManifest U P b)) /\
  (rejects (dockerutil.ParseManifestV2 U P) b ->
   rejects (dockerutil.ParseOCIManifest U P) b ->
   accepts (dockerutil.ParseManifestV2List U P) b ->
   rejects (dockerutil.ParseOCIIndex U P) b ->
   dockerutil.returned (dockerutil.ParseManifest U P r)
   = dockerutil.returned (dockerutil.ParseManifestV2List U P b)) /\
  (rejects (dockerutil.ParseManifestV2 U P) b ->
   rejects (dockerutil.ParseOCIManifest U P) b ->
   rejects (dockerutil.ParseManifestV2List U P) b ->
   accepts (dockerutil.ParseOCIIndex U P) b ->
   dockerutil.returned (dockerutil.ParseManifest U P r)
   = dockerutil.returned (dockerutil.ParseOCIIndex U P b)) /\
  (forall ct parse,
     In (ct, parse) (variants U P) ->
     snd (U ct b) <> None ->
     rejects parse b /\
     dockerutil.manifestOf (dockerutil.returned (parse b)) = None) /\
  (forall dec h doc d,
     dec b = inl doc ->
     vendor.mediaType doc = dockerutil._ociIndexType ->
     P (h b) = (d, None) ->
     dockerutil.returned
       (dockerutil.ParseManifest (vendor.UnmarshalManifest dec h) P r)
     = (Some (vendor.asList doc b), d, None) /\
     vendor.payloadMediaType (vendor.asList doc b) = dockerutil._ociIndexType /\
     rejects (dockerutil.ParseManifestV2List (vendor.UnmarshalManifest dec h) P) b) /\
  (forall dec h doc ct parse,
     dec b = inl doc ->
     vendor.mediaType doc <> "" ->
     In (ct, parse) (variants (vendor.UnmarshalManifest dec h) P) ->
     vendor.mediaType doc <> ct ->
     rejects parse b /\
     dockerutil.manifestOf (dockerutil.returned (parse b)) = None) /\
  (forall dec h doc d,
     dec b = inl doc ->
     vendor.mediaType doc = schema2.MediaTypeManifest ->
     vendor.schemaVersion doc = 2 ->
     P (h b) = (d, None) ->
     dockerutil.returned
       (dockerutil.ParseManifest (vendor.UnmarshalManifest dec h) P r)
     = (Some (builtSchema2 doc b), d, None) /\
     vendor.payloadMediaType (builtSchema2 doc b) = schema2.MediaTypeManifest /\
     rejects (dockerutil.ParseOCIManifest (vendor.UnmarshalManifest dec h) P) b /\
     rejects (dockerutil.ParseManifestV2List (vendor.UnmarshalManifest dec h) P) b /\
     rejects (dockerutil.ParseOCIIndex (vendor.UnmarshalManifest dec h) P) b) /\
  (forall dec h doc d,
     dec b = inl doc ->
     vendor.mediaType doc = dockerutil._ociManifestType ->
     vendor.schemaVersion doc = 2 ->
     P (h b) = (d, None) ->
     dockerutil.returned
       (dockerutil.ParseManifest (vendor.UnmarshalManifest dec h) P r)
     = (Some (builtOCISchema doc b), d, None) /\
     vendor.payloadMediaType (builtOCISchema doc b) = dockerutil._ociManifestType /\
     rejects (dockerutil.ParseManifestV2 (vendor.UnmarshalManifest dec h) P) b /\
     rejects (dockerutil.ParseManifestV2List (vendor.UnmarshalManifest dec h) P) b /\
     rejects (dockerutil.ParseOCIIndex (vendor.UnmarshalManifest dec h) P) b) /\
  (forall dec h doc d,
     dec b = inl doc ->
     vendor.mediaType doc = manifestlist.MediaTypeManifestList ->
     vendor.schemaVersion doc = 2 ->
     P (h b) = (d, None) ->
     dockerutil.returned
       (dockerutil.ParseManifest (vendor.UnmarshalManifest dec h) P r)
     = (Some (vendor.asList doc b), d, None) /\
     vendor.payloadMediaType (vendor.asList doc b)
     = manifestlist.MediaTypeManifestList /\
     rejects (dockerutil.ParseManifestV2 (vendor.UnmarshalManifest dec h) P) b /\
     rejects (dockerutil.ParseOCIManifest (vendor.UnmarshalManifest dec h) P) b /\
     rejects (dockerutil.ParseOCIIndex (vendor.UnmarshalManifest dec h) P) b) /\
  (forall dec h doc,
     dec b = inl doc ->
     In (vendor.mediaType doc)
        [ schema2.MediaTypeManifest; dockerutil._ociManifestType;
          manifestlist.MediaTypeManifestList ] ->
     vendor.schemaVersion doc <> 2 ->
     allRejected (vendor.UnmarshalManifest dec h) P b /\
     dockerutil.errOf
       (dockerutil.returned
          (dockerutil.ParseManifest (vendor.UnmarshalManifest dec h) P r))
     <> None).
Proof.
  intros HR.
  destruct (unique_acceptor U P r b HR) as (H1 & H2 & H3 & H4).
  assert (other : forall dec h doc ct parse,
            dec b = inl doc ->
            In (ct, parse) (variants (vendor.UnmarshalManifest dec h) P) ->
            In (vendor.mediaType doc) attempts ->
            vendor.mediaType doc <> ct ->
            rejects parse b).
  { intros dec h doc ct parse Hdec Hin Hmt Hct.
    apply (declared_mismatch_rejected dec h P ct parse b doc Hin Hdec); [|exact Hct].
    intros E. rewrite E in Hmt. simpl in Hmt.
    repeat (destruct Hmt as [Hmt|Hmt]; [discriminate|]). exact Hmt. }
  split; [auto|]. split; [auto|]. split; [auto|]. split; [auto|].
  split.
  { intros ct parse Hin Hn. exact (refused_attempt_fails U P b ct parse Hin Hn). }
  split.
  { intros dec h doc d Hdec Hmt HP. split; [|split].
    - exact (oci_index_resolves dec h P r b doc d HR Hdec Hmt HP).
    - simpl. rewrite Hmt. reflexivity.
    - apply (other dec h doc manifestlist.MediaTypeManifestList _ Hdec);
        [simpl; tauto | rewrite Hmt; simpl; tauto | rewrite Hmt; discriminate]. }
  split.
  { intros dec h doc ct parse Hdec Hne Hin Hct.
    exact (declared_mismatch_rejected dec h P ct parse b doc Hin Hdec Hne Hct). }
  split.
  { intros dec h doc d Hdec Hmt Hv HP. split; [|split; [|split; [|split]]].
    - exact (docker_v2_resolves dec h P r b doc d HR Hdec Hmt Hv HP).
    - reflexivity.
    - apply (other dec h doc dockerutil._ociManifestType _ Hdec);
        [simpl; tauto | rewrite Hmt; simpl; tauto | rewrite Hmt; discriminate].
    - apply (other dec h doc manifestlist.MediaTypeManifestList _ Hdec);
        [simpl; tauto | rewrite Hmt; simpl; tauto | rewrite Hmt; discriminate].
    - apply (other dec h doc dockerutil._ociIndexType _ Hdec);
        [simpl; tauto | rewrite Hmt; simpl; tauto | rewrite Hmt; discriminate]. }
  split.
  { intros dec h doc d Hdec Hmt Hv HP. split; [|split; [|split; [|split]]].
    - exact (oci_manifest_resolves dec h P r b doc d HR Hdec Hmt Hv HP).
    - reflexivity.
    - apply (other dec h doc schema2.MediaTypeManifest _ Hdec);
        [simpl; tauto | rewrite Hmt; simpl; tauto | rewrite Hmt; discriminate].
    - apply (other dec h doc manifestlist.MediaTypeManifestList _ Hdec);
        [simpl; tauto | rewrite Hmt; simpl; tauto | rewrite Hmt; discriminate].
    - apply (other dec h doc dockerutil._ociIndexType _ Hdec);
        [simpl; tauto | rewrite Hmt; simpl; tauto | rewrite Hmt; discriminate]. }
  split.
  { intros dec h doc d Hdec Hmt Hv HP. split; [|split; [|split; [|split]]].
    - exact (manifest_list_resolves dec h P r b doc d HR Hdec Hmt Hv HP).
    - simpl. rewrite Hmt. reflexivity.
    - apply (other dec h doc schema2.MediaTypeManifest _ Hdec);
        [simpl; tauto | rewrite Hmt; simpl; tauto | rewrite Hmt; discriminate].
    - apply (other dec h doc dockerutil._ociManifestType _ Hdec);
        [simpl; tauto | rewrite Hmt; simpl; tauto | rewrite Hmt; discriminate].
    - apply (other dec h doc dockerutil._ociIndexType _ Hdec);
        [simpl; tauto | rewrite Hmt; simpl; tauto | rewrite Hmt; discriminate]. }
  intros dec h doc Hdec Hin Hv.
  exact (wrong_version_rejected dec h P r b doc HR Hdec Hin Hv).
Qed.

(** The four payloads of dockerutil_test.go and the manifest list of
    version 3, each through the part of the statement for the media type
    it declares. *)
Lemma ParseManifest_unique_variant_witness :
  (rejects (dockerutil.ParseManifestV2 vendor.Unmarshal core.ParseSHA256Digest)
     payloads.testOciIndexBytes /\
   rejects (dockerutil.ParseOCIManifest vendor.Unmarshal core.ParseSHA256Digest)
     payloads.testOciIndexBytes /\
   rejects (dockerutil.ParseManifestV2List vendor.Unmarshal core.ParseSHA256Digest)
     payloads.testOciIndexBytes /\
   accepts (dockerutil.ParseOCIIndex vendor.Unmarshal core.ParseSHA256Digest)
     payloads.testOciIndexBytes) /\
  vendor.ParseManifest payloads.testOciIndexBytes
  = dockerutil.returned
      (dockerutil.ParseOCIIndex vendor.Unmarshal core.ParseSHA256Digest
         payloads.testOciIndexBytes) /\
  map (fun p =>
         option_map vendor.payloadMediaType
           (dockerutil.manifestOf (vendor.ParseManifest p)))
      [ payloads.testOciIndexBytes; payloads.testManifestBytes;
        payloads.testOciManifestBytes; payloads.testManifestListBytes ]
  = [ Some dockerutil._ociIndexType; Some schema2.MediaTypeManifest;
      Some dockerutil._ociManifestType; Some manifestlist.MediaTypeManifestList ] /\
  dockerutil.errOf (vendor.ParseManifest payloads.manifestListV3) <> None.
Proof.
  assert (R1 : rejects (dockerutil.ParseManifestV2 vendor.Unmarshal
                          core.ParseSHA256Digest) payloads.testOciIndexBytes)
    by (vm_compute; discriminate).
  assert (R2 : rejects (dockerutil.ParseOCIManifest vendor.Unmarshal
                          core.ParseSHA256Digest) payloads.testOciIndexBytes)
    by (vm_compute; discriminate).
  assert (R3 : rejects (dockerutil.ParseManifestV2List vendor.Unmarshal
                          core.ParseSHA256Digest) payloads.testOciIndexBytes)
    by (vm_compute; discriminate).
  assert (A4 : accepts (dockerutil.ParseOCIIndex vendor.Unmarshal
                          core.ParseSHA256Digest) payloads.testOciIndexBytes)
    by (vm_compute; reflexivity).
  pose proof (fun p =>
    ParseManifest_unique_variant vendor.Unmarshal core.ParseSHA256Digest
      (io.NewReader p) p eq_refl) as T.
  split; [now repeat split|].
  split.
  { destruct (T payloads.testOciIndexBytes) as (_ & _ & _ & H4 & _).
    exact (H4 R1 R2 R3 A4). }
  split.
  { unfold vendor.ParseManifest, vendor.Unmarshal. cbn [map].
    destruct (T payloads.testOciIndexBytes)
      as (_ & _ & _ & _ & _ & I & _ & _ & _ & _ & _).
    edestruct (I vendor.tableJSON vendor.tableDigest) as (HI & MI & _);
      [vm_compute; reflexivity | reflexivity | vm_compute; reflexivity |].
    destruct (T payloads.testManifestBytes)
      as (_ & _ & _ & _ & _ & _ & _ & D & _ & _ & _).
    edestruct (D vendor.tableJSON vendor.tableDigest) as (HD & MD & _);
      [vm_compute; reflexivity | reflexivity | reflexivity
      | vm_compute; reflexivity |].
    destruct (T payloads.testOciManifestBytes)
      as (_ & _ & _ & _ & _ & _ & _ & _ & O & _ & _).
    edestruct (O vendor.tableJSON vendor.tableDigest) as (HO & MO & _);
      [vm_compute; reflexivity | reflexivity | reflexivity
      | vm_compute; reflexivity |].
    destruct (T payloads.testManifestListBytes)
      as (_ & _ & _ & _ & _ & _ & _ & _ & _ & L & _).
    edestruct (L vendor.tableJSON vendor.tableDigest) as (HL & ML & _);
      [vm_compute; reflexivity | reflexivity | reflexivity
      | vm_compute; reflexivity |].
    rewrite HI, HD, HO, HL. unfold dockerutil.manifestOf. cbn [fst option_map].
    now rewrite MI, MD, MO, ML. }
  destruct (T payloads.manifestListV3)
    as (_ & _ & _ & _ & _ & _ & _ & _ & _ & _ & W).
  edestruct (W vendor.tableJSON vendor.tableDigest) as (_ & HW);
    [vm_compute; reflexivity | vm_compute; tauto | vm_compute; discriminate |].
  exact HW.
Defined.

(** C1: the payload of an OCI index that declares schema version 3.  The
    unmarshaller accepts it under the OCI index type, and [ParseOCIIndex],
    which has no version check, returns the manifest with its version 3 and
    a nil error; so does [ParseManifest].  The same document under the
    manifest list type is rejected by [ParseManifestV2List] for its
    version. *)
Theorem ParseOCIIndex_accepts_schema_version_3 :
  dockerutil.returned
    (dockerutil.ParseOCIIndex vendor.Unmarshal core.ParseSHA256Digest
       payloads.ociIndexV3)
  = vendor.ParseManifest payloads.ociIndexV3 /\
  dockerutil.errOf (vendor.ParseManifest payloads.ociIndexV3) = None /\
  option_map schemaVersionOf
    (dockerutil.manifestOf (vendor.ParseManifest payloads.ociIndexV3))
  = Some (Some 3) /\
  dockerutil.errOf
    (dockerutil.returned
       (dockerutil.ParseManifestV2List vendor.Unmarshal core.ParseSHA256Digest
          payloads.manifestListV3))
  = Some "unsupported manifest list version: 3".
Proof.
  repeat split; vm_compute; reflexivity.
Qed.

(** C2 fails on text that is not JSON: all four attempts
    reject it, and the error [ParseManifest] returns is the error of the
    OCI index attempt. *)
Lemma aggregate_error_refuted :
  ~ aggregateError vendor.Unmarshal core.ParseSHA256Digest
      (io.NewReader payloads.notJSON).
Proof.
  intros H.
  apply (H payloads.notJSON eq_refl).
  - repeat split; vm_compute; discriminate.
  - vm_compute. reflexivity.
Qed.

Lemma ParseManifest_reports_last_attempt_witness :
  allRejected vendor.Unmarshal core.ParseSHA256Digest payloads.notJSON /\
  vendor.ParseManifest payloads.notJSON
  = dockerutil.returned
      (dockerutil.ParseOCIIndex vendor.Unmarshal core.ParseSHA256Digest
         payloads.notJSON).
Proof.
  assert (HA : allRejected vendor.Unmarshal core.ParseSHA256Digest payloads.notJSON)
    by (repeat split; vm_compute; discriminate).
  split; [exact HA|].
  exact (proj1 (ParseManifest_reports_last_attempt vendor.Unmarshal
                  core.ParseSHA256Digest (io.NewReader payloads.notJSON)
                  payloads.notJSON eq_refl HA)).
Defined.

Lemma ParseManifest_fixed_order_witness :
  dockerutil.calls
    (dockerutil.ParseManifest vendor.Unmarshal core.ParseSHA256Digest
       (io.NewReader payloads.testOciManifestBytes))
  = [ (schema2.MediaTypeManifest, payloads.testOciManifestBytes);
      (dockerutil._ociManifestType, payloads.testOciManifestBytes) ].
Proof.
  destruct (ParseManifest_fixed_order vendor.Unmarshal core.ParseSHA256Digest
              (io.NewReader payloads.testOciManifestBytes)
              payloads.testOciManifestBytes eq_refl)
    as [(A & _)|[(_ & _ & _ & C)|[(_ & _ & A & _)|(_ & A & _)]]].
  - exfalso. vm_compute in A. discriminate.
  - exact C.
  - exfalso. vm_compute in A. discriminate.
  - exfalso. vm_compute in A. now apply A.
Defined.

Lemma parse_all_or_nothing_witness :
  dockerutil.errOf (vendor.ParseManifest payloads.notJSON) <> None /\
  dockerutil.manifestOf (vendor.ParseManifest payloads.notJSON) = None /\
  dockerutil.digestOf (vendor.ParseManifest payloads.notJSON) = core.zero.
Proof.
  assert (HE : dockerutil.errOf (vendor.ParseManifest payloads.notJSON) <> None)
    by (vm_compute; discriminate).
  split; [exact HE|].
  apply (proj1 (parse_all_or_nothing vendor.Unmarshal core.ParseSHA256Digest
                  (io.NewReader payloads.notJSON) payloads.notJSON
                  (vendor.ParseManifest payloads.notJSON)
                  (or_introl eq_refl))).
  exact HE.
Defined.

(** * The digest of a resolved manifest *)

Lemma cut_prefix (algo h : string) :
  (forallb (fun c => negb (Ascii.eqb c ":")) (list_ascii_of_string algo)) = true ->
  core.cut (algo ++ String ":" h) = (algo, Some h).
Proof.
  induction algo as [|c algo IH]; simpl; intros Hc; [reflexivity|].
  apply andb_true_iff in Hc. destruct Hc as [Hc Hrest].
  destruct (Ascii.eqb c ":"); [discriminate|].
  now rewrite (IH Hrest).
Qed.

(** Every digest [core.ParseSHA256Digest] returns without an error has
    the algorithm sha256. *)
Lemma ParseSHA256Digest_algorithm (raw : string) (d : core.Digest) :
  core.ParseSHA256Digest raw = (d, None) -> core.algorithm d = "sha256".
Proof.
  unfold core.ParseSHA256Digest.
  destruct (core.cut raw) as [algo [hx|]]; [|discriminate].
  destruct ((algo =? core.SHA256)%string && core.validSHA256Hex hx);
    [|discriminate].
  intros E. inversion E. reflexivity.
Qed.

Lemma ParseSHA256Digest_valid (hx : string) :
  core.validSHA256Hex hx = true ->
  core.ParseSHA256Digest ("sha256:" ++ hx)
  = ({| core.algorithm := "sha256"; core.hex := hx |}, None).
Proof.
  intros Hv. unfold core.ParseSHA256Digest.
  change ("sha256:" ++ hx) with ("sha256" ++ String ":" hx).
  rewrite cut_prefix by reflexivity.
  unfold core.SHA256. rewrite Hv. reflexivity.
Qed.

(** C8: over [core.ParseSHA256Digest], whenever one of the five parse
    functions returns without an error, the algorithm of the digest it
    returns is sha256.  A payload that declares the manifest list media
    type and schema version 2, and whose descriptor carries a sha256
    digest, resolves to the manifest list with a digest of algorithm
    sha256; the manifest list of dockerutil_test.go is such a payload. *)
Theorem resolved_digest_is_sha256 :
  (forall (U : string -> bytes ->
                option Manifest * distribution.Descriptor * option error)
          (r : io.Reader) (b : bytes) (res : dockerutil.Result),
     In res [ dockerutil.returned (dockerutil.ParseManifest U core.ParseSHA256Digest r);
              dockerutil.returned (dockerutil.ParseManifestV2 U core.ParseSHA256Digest b);
              dockerutil.returned (dockerutil.ParseManifestV2List U core.ParseSHA256Digest b);
              dockerutil.returned (dockerutil.ParseOCIManifest U core.ParseSHA256Digest b);
              dockerutil.returned (dockerutil.ParseOCIIndex U core.ParseSHA256Digest b) ] ->
     dockerutil.errOf res = None ->
     core.algorithm (dockerutil.digestOf res) = "sha256") /\
  (forall dec h (r : io.Reader) (b : bytes) doc hx,
     io.ReadAll r = (b, None) ->
     dec b = inl doc ->
     vendor.mediaType doc = manifestlist.MediaTypeManifestList ->
     vendor.schemaVersion doc = 2 ->
     h b = "sha256:" ++ hx ->
     core.validSHA256Hex hx = true ->
     dockerutil.returned
       (dockerutil.ParseManifest (vendor.UnmarshalManifest dec h)
          core.ParseSHA256Digest r)
     = (Some (vendor.asList doc b),
        {| core.algorithm := "sha256"; core.hex := hx |}, None)) /\
  (option_map vendor.payloadMediaType
     (dockerutil.manifestOf (vendor.ParseManifest payloads.testManifestListBytes))
   = Some manifestlist.MediaTypeManifestList /\
   dockerutil.errOf (vendor.ParseManifest payloads.testManifestListBytes) = None /\
   core.algorithm
     (dockerutil.digestOf (vendor.ParseManifest payloads.testManifestListBytes))
   = "sha256").
Proof.
  split; [|split].
  - intros U r b res Hin Hok.
    destruct (successful_digest_parsed U core.ParseSHA256Digest r b res Hin Hok)
      as (raw & HP).
    exact (ParseSHA256Digest_algorithm raw _ HP).
  - intros dec h r b doc hx HR Hdec Hmt Hv Hh Hhx.
    apply (manifest_list_resolves dec h core.ParseSHA256Digest r b doc); auto.
    rewrite Hh. now apply ParseSHA256Digest_valid.
  - repeat split; vm_compute; reflexivity.
Qed.

Lemma resolved_digest_is_sha256_witness :
  dockerutil.errOf (vendor.ParseManifest payloads.testManifestBytes) = None /\
  core.algorithm
    (dockerutil.digestOf (vendor.ParseManifest payloads.testManifestBytes))
  = "sha256".
Proof.
  assert (HE : dockerutil.errOf (vendor.ParseManifest payloads.testManifestBytes)
               = None) by (vm_compute; reflexivity).
  split; [exact HE|].
  exact (proj1 resolved_digest_is_sha256 vendor.Unmarshal
           (io.NewReader payloads.testManifestBytes) payloads.testManifestBytes
           (vendor.ParseManifest payloads.testManifestBytes)
           (or_introl eq_refl) HE).
Defined.

(** * References of a manifest *)

Section References.

Variable P : string -> core.Digest * option error.

(** A reference descriptor is well formed when its digest string parses. *)
Local Notation "'wellFormed'" :=
  (fun desc : distribution.Descriptor => snd (P (distribution.Digest desc)) = None).

Local Notation "'digests'" :=
  (map (fun desc : distribution.Descriptor => fst (P (distribution.Digest desc)))).

Lemma referencesLoop_wellFormed (descs : list distribution.Descriptor)
  (refs : list core.Digest) :
  Forall wellFormed descs ->
  dockerutil.referencesLoop P descs refs = ((refs ++ digests descs)%list, None).
Proof.
  revert refs. induction descs as [|desc rest IH]; intros refs HF; simpl.
  - now rewrite app_nil_r.
  - inversion HF as [|? ? Hd Hrest]; subst.
    destruct (P (distribution.Digest desc)) as [d err] eqn:E.
    simpl in Hd. subst err. simpl.
    rewrite (IH _ Hrest), <- app_assoc. reflexivity.
Qed.

Lemma referencesLoop_malformed (pre post : list distribution.Descriptor)
  (desc : distribution.Descriptor) (e : error) (refs : list core.Digest) :
  Forall wellFormed pre ->
  snd (P (distribution.Digest desc)) = Some e ->
  dockerutil.referencesLoop P (pre ++ desc :: post)%list refs
  = ([], Some ("parse digest: " ++ e)).
Proof.
  revert refs. induction pre as [|x pre IH]; intros refs HF He; simpl.
  - destruct (P (distribution.Digest desc)) as [d err]. simpl in He. subst err.
    unfold fmt.Errorf. simpl. now rewrite append_empty_r.
  - inversion HF as [|? ? Hx Hpre]; subst.
    destruct (P (distribution.Digest x)) as [d err]. simpl in Hx. subst err.
    now apply IH.
Qed.

(** A list with a malformed descriptor splits at the first one. *)
Lemma first_malformed (descs : list distribution.Descriptor) :
  Exists (fun desc => snd (P (distribution.Digest desc)) <> None) descs ->
  exists pre desc post e,
    descs = (pre ++ desc :: post)%list /\
    Forall wellFormed pre /\
    snd (P (distribution.Digest desc)) = Some e.
Proof.
  induction descs as [|x rest IH]; intros HE; [inversion HE|].
  destruct (snd (P (distribution.Digest x))) as [e|] eqn:Ex.
  - exists [], x, rest, e. repeat split; auto.
  - inversion HE as [? ? Hx|? ? Hrest]; subst; [congruence|].
    destruct (IH Hrest) as (pre & desc & post & e & -> & HF & He).
    exists (x :: pre), desc, post, e. repeat split; auto.
Qed.

(** C6: when every reference descriptor of the manifest is well formed,
    [GetManifestReferences] returns the parsed digests of all of them, one
    per descriptor and in the order of the descriptors, with a nil error;
    when some descriptor is malformed it returns no digest and the error
    of the first malformed one; and the result depends on the manifest
    through its reference descriptors only, whatever its variant. *)
Theorem GetManifestReferences_flattens (m : Manifest) :
  (Forall wellFormed (References m) ->
   dockerutil.GetManifestReferences P m = (digests (References m), None)) /\
  (Exists (fun desc => snd (P (distribution.Digest desc)) <> None) (References m) ->
   exists pre desc post e,
     References m = (pre ++ desc :: post)%list /\
     Forall wellFormed pre /\
     snd (P (distribution.Digest desc)) = Some e /\
     dockerutil.GetManifestReferences P m = ([], Some ("parse digest: " ++ e))) /\
  (forall m' : Manifest,
     References m' = References m ->
     dockerutil.GetManifestReferences P m' = dockerutil.GetManifestReferences P m).
Proof.
  unfold dockerutil.GetManifestReferences. repeat split.
  - intros HF. now rewrite (referencesLoop_wellFormed _ [] HF).
  - intros HE.
    destruct (first_malformed _ HE) as (pre & desc & post & e & Hs & HF & He).
    exists pre, desc, post, e. repeat split; auto.
    rewrite Hs. now apply referencesLoop_malformed.
  - intros m' ->. reflexivity.
Qed.

End References.

(** The manifest of dockerutil_test.go, as the schema2 unmarshaller decodes
    it, has its config and its layer as references. *)
Lemma GetManifestReferences_flattens_witness :
  exists m,
    dockerutil.manifestOf (vendor.ParseManifest payloads.testManifestBytes) = Some m /\
    Forall (fun desc =>
              snd (core.ParseSHA256Digest (distribution.Digest desc)) = None)
           (References m) /\
    dockerutil.GetManifestReferences core.ParseSHA256Digest m
    = ([ {| core.algorithm := "sha256";
            core.hex := "1a9ec845ee94c202b2d5da74a24f0ed2058318bfa9879fa541efaecba272e86b" |};
         {| core.algorithm := "sha256";
            core.hex := "62d8908bee94c202b2d35224a221aaa2058318bfa9879fa541efaecba272331b" |} ],
       None).
Proof.
  eexists. split; [vm_compute; reflexivity|].
  match goal with
  | |- Forall ?Q (References ?m) /\ _ =>
      assert (HF : Forall Q (References m))
        by (repeat constructor; vm_compute; reflexivity)
  end.
  split; [exact HF|].
  rewrite (proj1 (GetManifestReferences_flattens core.ParseSHA256Digest _) HF).
  vm_compute. reflexivity.
Defined.

(** * The supported media types *)

(** C9: [GetSupportedManifestTypes] is one constant string: the four media
    types, Docker manifest, Docker manifest list, OCI manifest and OCI
    index, in that order and separated by commas. *)
Theorem GetSupportedManifestTypes_constant :
  dockerutil.GetSupportedManifestTypes
  = String.concat ","
      [ "application/vnd.docker.distribution.manifest.v2+json";
        "application/vnd.docker.distribution.manifest.list.v2+json";
        "application/vnd.oci.image.manifest.v1+json";
        "application/vnd.oci.image.index.v1+json" ] /\
  dockerutil.GetSupportedManifestTypes
  = "application/vnd.docker.distribution.manifest.v2+json,application/vnd.docker.distribution.manifest.list.v2+json,application/vnd.oci.image.manifest.v1+json,application/vnd.oci.image.index.v1+json" /\
  [ dockerutil._v2ManifestType; dockerutil._v2ManifestListType;
    dockerutil._ociManifestType; dockerutil._ociIndexType ]
  = [ "application/vnd.docker.distribution.manifest.v2+json";
      "application/vnd.docker.distribution.manifest.list.v2+json";
      "application/vnd.oci.image.manifest.v1+json";
      "application/vnd.oci.image.index.v1+json" ].
Proof.
  repeat split.
Qed.

(** * Properties of package closers *)

Section Closers.

Variable R : Type.

(** The helper never panics and returns nothing: whatever the closer does,
    the call returns. *)
Lemma Close_returns (closer : option (closers.Closer R)) (st : closers.State R) :
  fst (closers.Close closer st) = Returned tt.
Proof.
  unfold closers.Close, closers.bind, closers.callClose, closers.log, closers.ret.
  destruct closer as [c|]; simpl; [|reflexivity].
  destruct (closers.Close_ c (closers.heap st)) as [[e|] h]; simpl;
    [|reflexivity].
  destruct ((e =? "file already closed")%string
            || (e =? "close: file already closed")%string); reflexivity.
Qed.

(** The state after the helper: the closer's [Close] is called once, and a
    close error is logged once. *)
Lemma Close_effects (c : closers.Closer R) (st : closers.State R) :
  snd (closers.Close (Some c) st)
  = {| closers.heap := snd (closers.Close_ c (closers.heap st));
       closers.events :=
         (closers.events st ++
          closers.CloseCalled ::
          match fst (closers.Close_ c (closers.heap st)) with
          | Some e => [closers.Logged (closers.entryFor e)]
          | None => []
          end)%list |}.
Proof.
  unfold closers.Close, closers.bind, closers.callClose, closers.log,
    closers.ret, closers.entryFor.
  simpl.
  destruct (closers.Close_ c (closers.heap st)) as [[e|] h]; simpl;
    [|reflexivity].
  destruct ((e =? "file already closed")%string
            || (e =? "close: file already closed")%string); simpl;
    now rewrite <- app_assoc.
Qed.

Lemma entryFor_level (e : error) :
  (e = "file already closed" \/ e = "close: file already closed" ->
   zap.level (closers.entryFor e) = zap.DebugLevel) /\
  (e <> "file already closed" -> e <> "close: file already closed" ->
   zap.level (closers.entryFor e) = zap.ErrorLevel) /\
  In (zap.Error e) (zap.fields (closers.entryFor e)).
Proof.
  unfold closers.entryFor.
  destruct (String.eqb_spec e "file already closed") as [E1|E1];
    destruct (String.eqb_spec e "close: file already closed") as [E2|E2];
    simpl; repeat split; try tauto; try congruence;
    intros [D|D]; congruence.
Qed.

(** C7 (amended): the helper propagates no close failure at all.  For every
    closer and every state the call returns normally, and a close error
    only leaves a log entry that carries the error: a debug entry when its
    message is exactly one of the two already-closed messages the helper
    knows, an error entry with a stack otherwise, which is the case of a
    failure to flush. *)
Theorem Close_logs_and_swallows (closer : option (closers.Closer R))
  (c : closers.Closer R) (st : closers.State R) :
  propagated (fst (closers.Close closer st)) = None /\
  closers.heap (snd (closers.Close (Some c) st))
  = snd (closers.Close_ c (closers.heap st)) /\
  match fst (closers.Close_ c (closers.heap st)) with
  | None =>
      closers.events (snd (closers.Close (Some c) st))
      = (closers.events st ++ [closers.CloseCalled])%list
  | Some e =>
      exists entry,
        closers.events (snd (closers.Close (Some c) st))
        = (closers.events st ++ [closers.CloseCalled; closers.Logged entry])%list /\
        In (zap.Error e) (zap.fields entry) /\
        (e = "file already closed" \/ e = "close: file already closed" ->
         zap.level entry = zap.DebugLevel) /\
        (e <> "file already closed" -> e <> "close: file already closed" ->
         zap.level entry = zap.ErrorLevel /\
         zap.msg entry = "failed to close a closer")
  end.
Proof.
  rewrite Close_returns, Close_effects. simpl.
  split; [reflexivity|]. split; [reflexivity|].
  destruct (fst (closers.Close_ c (closers.heap st))) as [e|]; [|reflexivity].
  exists (closers.entryFor e).
  destruct (entryFor_level e) as (HD & HE & HI).
  split; [reflexivity|]. split; [exact HI|]. split; [exact HD|].
  intros N1 N2. split; [exact (HE N1 N2)|].
  unfold closers.entryFor.
  apply String.eqb_neq in N1, N2. now rewrite N1, N2.
Qed.

(** Without the guard the method call on a nil closer would panic. *)
Lemma callClose_nil_panics (st : closers.State R) :
  propagated (fst (closers.callClose R None st)) <> None.
Proof.
  simpl. discriminate.
Qed.

(** C10: with a nil closer the helper returns at once: the closer's method
    is not called, nothing is logged, no resource changes, and the call
    does not panic. *)
Theorem Close_nil_is_noop (st : closers.State R) :
  closers.Close None st = (Returned tt, st) /\
  propagated (fst (closers.Close None st)) = None /\
  closers.events (snd (closers.Close None st)) = closers.events st /\
  closers.heap (snd (closers.Close None st)) = closers.heap st.
Proof.
  repeat split.
Qed.

End Closers.

(** C7 fails on a closer whose [Close] cannot flush: the data
    stays unwritten, the close reports an input/output error, and the
    helper returns normally all the same. *)
Lemma flush_failure_not_propagated :
  let st := {| closers.heap := {| closers.closed := false; closers.dirty := true |};
               closers.events := [] |} in
  fst (closers.Close_ (closers.failingFlushCloser "/data/blob") (closers.heap st))
  = Some "close /data/blob: input/output error" /\
  closers.dirty
    (closers.heap
       (snd (closers.Close (Some (closers.failingFlushCloser "/data/blob")) st)))
  = true /\
  ~ closers.failurePropagates (closers.failingFlushCloser "/data/blob") st.
Proof.
  repeat split.
  intros Hp. apply (Hp "close /data/blob: input/output error"); reflexivity.
Qed.

(** Closing a file that is closed already: the error carries the operation
    and the file name, so it is not one of the two bare messages, and the
    helper logs it as an error. *)
Lemma Close_logs_and_swallows_witness :
  let st := {| closers.heap := {| closers.closed := true; closers.dirty := false |};
               closers.events := [] |} in
  fst (closers.Close_ (closers.fileCloser "/tmp/x") (closers.heap st))
  = Some "close /tmp/x: file already closed" /\
  exists entry,
    closers.events (snd (closers.Close (Some (closers.fileCloser "/tmp/x")) st))
    = [closers.CloseCalled; closers.Logged entry] /\
    zap.level entry = zap.ErrorLevel.
Proof.
  intros st. split; [reflexivity|].
  destruct (Close_logs_and_swallows closers.File None
              (closers.fileCloser "/tmp/x") st) as (_ & _ & Hm).
  simpl in Hm. destruct Hm as (entry & Hev & _ & _ & HE).
  exists entry. split; [exact Hev|].
  apply HE; discriminate.
Defined.

(** * The tests of dockerutil_test.go, over the table *)

Example TestParseManifestV2List :
  let parse := fun p =>
    dockerutil.returned
      (dockerutil.ParseManifestV2List vendor.Unmarshal core.ParseSHA256Digest p) in
  (dockerutil.errOf (parse payloads.testManifestListBytes) = None /\
   option_map vendor.payloadMediaType
     (dockerutil.manifestOf (parse payloads.testManifestListBytes))
   = Some manifestlist.MediaTypeManifestList /\
   core.algorithm (dockerutil.digestOf (parse payloads.testManifestListBytes))
   = "sha256") /\
  dockerutil.errOf (parse payloads.testManifestBytes) <> None.
Proof.
  repeat split; vm_compute; (reflexivity || discriminate).
Qed.

Example TestParseOCIManifest :
  let parse := fun p =>
    dockerutil.returned
      (dockerutil.ParseOCIManifest vendor.Unmarshal core.ParseSHA256Digest p) in
  (dockerutil.errOf (parse payloads.testOciManifestBytes) = None /\
   option_map vendor.payloadMediaType
     (dockerutil.manifestOf (parse payloads.testOciManifestBytes))
   = Some "application/vnd.oci.image.manifest.v1+json" /\
   core.algorithm (dockerutil.digestOf (parse payloads.testOciManifestBytes))
   = "sha256") /\
  dockerutil.errOf (parse payloads.testManifestListBytes) <> None.
Proof.
  repeat split; vm_compute; (reflexivity || discriminate).
Qed.

Example TestParseOCIIndex :
  let parse := fun p =>
    dockerutil.returned
      (dockerutil.ParseOCIIndex vendor.Unmarshal core.ParseSHA256Digest p) in
  (dockerutil.errOf (parse payloads.testOciIndexBytes) = None /\
   option_map vendor.payloadMediaType
     (dockerutil.manifestOf (parse payloads.testOciIndexBytes))
   = Some "application/vnd.oci.image.index.v1+json" /\
   core.algorithm (dockerutil.digestOf (parse payloads.testOciIndexBytes))
   = "sha256") /\
  dockerutil.errOf (parse payloads.testManifestBytes) <> None.
Proof.
  repeat split; vm_compute; (reflexivity || discriminate).
Qed.

Example TestParseManifest :
  map (fun p =>
         (dockerutil.errOf (vendor.ParseManifest p),
          option_map vendor.payloadMediaType
            (dockerutil.manifestOf (vendor.ParseManifest p)),
          core.algorithm (dockerutil.digestOf (vendor.ParseManifest p))))
      [ payloads.testManifestBytes; payloads.testManifestListBytes;
        payloads.testOciManifestBytes; payloads.testOciIndexBytes ]
  = [ (None, Some "application/vnd.docker.distribution.manifest.v2+json", "sha256");
      (None, Some "application/vnd.docker.distribution.manifest.list.v2+json", "sha256");
      (None, Some "application/vnd.oci.image.manifest.v1+json", "sha256");
      (None, Some "application/vnd.oci.image.index.v1+json", "sha256") ].
Proof.
  vm_compute. reflexivity.
Qed.

(** * Further properties of the parse functions *)

Lemma Errorf_decimal (prefix : string) (v : Z) :
  (forallb (fun c => negb (Ascii.eqb c "%")) (list_ascii_of_string prefix)) = true ->
  fmt.Errorf (prefix ++ "%d") [fmt.Int v] = prefix ++ fmt.decimal v.
Proof.
  unfold fmt.Errorf.
  induction prefix as [|c prefix IH]; intros Hp.
  - cbn -[fmt.decimal]. now rewrite append_empty_r.
  - simpl in Hp. apply andb_true_iff in Hp. destruct Hp as [Hc Hp].
    change (String c prefix ++ "%d") with (String c (prefix ++ "%d")).
    rewrite Sprintf_prefix.
    + simpl. now rewrite (IH Hp).
    + intros ->. discriminate.
Qed.

Section Parsers.

Import dockerutil.

Variable U :
  string -> bytes -> option Manifest * distribution.Descriptor * option error.
Variable P : string -> core.Digest * option error.

Local Notation "'V2'" := (dockerutil.ParseManifestV2 U P).
Local Notation "'OCIm'" := (dockerutil.ParseOCIManifest U P).
Local Notation "'V2L'" := (dockerutil.ParseManifestV2List U P).
Local Notation "'OCIi'" := (dockerutil.ParseOCIIndex U P).
Local Notation "'Resolve'" := (dockerutil.ParseManifest U P).

(** Case analysis along the branches of one parse function. *)
Ltac branches :=
  repeat match goal with
  | |- context [U ?ct ?b] =>
      let m := fresh "m" in let desc := fresh "desc" in let err := fresh "err" in
      let E := fresh "EU" in
      destruct (U ct b) as [[m desc] err] eqn:E; simpl
  | |- context [P ?s] =>
      let d := fresh "d" in let err := fresh "err" in let E := fresh "EP" in
      destruct (P s) as [d err] eqn:E; simpl
  | |- context [match ?x with Some _ => _ | None => _ end] => destruct x; simpl
  | |- context [match ?x with Schema2 _ => _ | _ => _ end] => destruct x; simpl
  | |- context [match ?x with OCISchema _ => _ | _ => _ end] => destruct x; simpl
  | |- context [match ?x with ManifestList _ => _ | _ => _ end] => destruct x; simpl
  | |- context [if negb (?v =? 2) then _ else _] =>
      let E := fresh "Ev" in destruct (v =? 2) eqn:E; simpl
  end.

Ltac unfold_parsers :=
  unfold dockerutil.ParseManifestV2, dockerutil.ParseOCIManifest,
    dockerutil.ParseManifestV2List, dockerutil.ParseOCIIndex,
    dockerutil.bind, dockerutil.unmarshal, dockerutil.ret,
    asSchema2, asOCISchema, asManifestList.

Lemma accepts_or_rejects (parse : bytes -> M Result) (b : bytes) :
  accepts parse b \/ rejects parse b.
Proof.
  unfold accepts, rejects.
  destruct (errOf (returned (parse b))); [right; discriminate | now left].
Qed.

(** X1: when reading fails, [ParseManifest] makes no attempt at all: the
    unmarshaller is not called, whatever bytes were read before the
    failure, and the result is the read error behind the prefix
    [read: ], with a nil manifest and the zero digest. *)
Theorem ParseManifest_read_failure (r : io.Reader) (b : bytes) (e : error) :
  io.ReadAll r = (b, Some e) ->
  returned (Resolve r) = (None, core.zero, Some ("read: " ++ e)) /\
  calls (Resolve r) = [] /\
  forall t : list Call, snd (Resolve r t) = t.
Proof.
  intros HR. unfold returned, calls.
  rewrite (ParseManifest_read_error U P r b e HR). repeat split.
  intros t. unfold dockerutil.ParseManifest. now rewrite HR.
Qed.

(** X2: the three parse functions that assert the manifest type reject a
    manifest of that type whose schema version [v] is not 2, each with its
    own message ending in the decimal form of [v], a nil manifest and the
    zero digest; the digest of the descriptor plays no part. *)
Theorem version_gate_messages (b : bytes) (desc : distribution.Descriptor) (v : Z) :
  v <> 2 ->
  (forall dm,
     U schema2.MediaTypeManifest b = (Some (Schema2 dm), desc, None) ->
     manifest.SchemaVersion (schema2.Versioned (schema2.Manifest_ dm)) = v ->
     returned (V2 b)
     = (None, core.zero, Some ("unsupported manifest version: " ++ fmt.decimal v))) /\
  (forall dm,
     U _ociManifestType b = (Some (OCISchema dm), desc, None) ->
     manifest.SchemaVersion (ocischema.Versioned (ocischema.Manifest_ dm)) = v ->
     returned (OCIm b)
     = (None, core.zero,
        Some ("unsupported oci manifest version: " ++ fmt.decimal v))) /\
  (forall dm,
     U manifestlist.MediaTypeManifestList b = (Some (ManifestList dm), desc, None) ->
     manifest.SchemaVersion (manifestlist.Versioned (manifestlist.ManifestList_ dm)) = v ->
     returned (V2L b)
     = (None, core.zero,
        Some ("unsupported manifest list version: " ++ fmt.decimal v))).
Proof.
  intros Hv. apply Z.eqb_neq in Hv.
  repeat split; intros dm HU Hdm; unfold returned; unfold_parsers;
    cbn -[fmt.Errorf]; rewrite HU; cbn -[fmt.Errorf]; rewrite Hdm, Hv;
    cbn -[fmt.Errorf]; unfold ret; do 2 f_equal.
  - exact (Errorf_decimal "unsupported manifest version: " v eq_refl).
  - exact (Errorf_decimal "unsupported oci manifest version: " v eq_refl).
  - exact (Errorf_decimal "unsupported manifest list version: " v eq_refl).
Qed.

(** X3: a manifest accepted by [ParseManifestV2], [ParseOCIManifest] or
    [ParseManifestV2List] is never nil: it has the concrete type the
    function asserts, and its schema version is 2. *)
Theorem accepted_type_and_version (b : bytes) :
  (accepts V2 b ->
   exists dm,
     manifestOf (returned (V2 b)) = Some (Schema2 dm) /\
     manifest.SchemaVersion (schema2.Versioned (schema2.Manifest_ dm)) = 2) /\
  (accepts OCIm b ->
   exists dm,
     manifestOf (returned (OCIm b)) = Some (OCISchema dm) /\
     manifest.SchemaVersion (ocischema.Versioned (ocischema.Manifest_ dm)) = 2) /\
  (accepts V2L b ->
   exists dm,
     manifestOf (returned (V2L b)) = Some (ManifestList dm) /\
     manifest.SchemaVersion
       (manifestlist.Versioned (manifestlist.ManifestList_ dm)) = 2).
Proof.
  unfold accepts, returned, errOf, manifestOf.
  unfold dockerutil.ParseManifestV2, dockerutil.ParseOCIManifest,
    dockerutil.ParseManifestV2List, bind, unmarshal, ret.
  repeat split; simpl;
    (destruct (U _ b) as [[m desc] [e|]]; simpl; [intros; discriminate|]);
    (destruct m as [[dm|dm|dm|mt pl rf]|]; simpl; try (intros; discriminate));
    match goal with
    | |- context [negb (?v =? 2)] =>
        destruct (Z.eqb_spec v 2) as [Ev|Ev]; simpl; [|intros; discriminate]
    end;
    (destruct (P _) as [d [e|]]; simpl; [intros; discriminate|]);
    intros _; exists dm; (split; [reflexivity | exact Ev]).
Qed.

(** X4: once the bytes are read, [ParseManifest] succeeds exactly when one
    of the four attempts accepts them, and fails exactly when all four
    reject them. *)
Theorem ParseManifest_succeeds_iff (r : io.Reader) (b : bytes) :
  io.ReadAll r = (b, None) ->
  (errOf (returned (Resolve r)) = None <->
   accepts V2 b \/ accepts OCIm b \/ accepts V2L b \/ accepts OCIi b) /\
  (errOf (returned (Resolve r)) <> None <-> allRejected U P b).
Proof.
  intros HR.
  destruct (unique_acceptor U P r b HR) as (H1 & H2 & H3 & H4).
  unfold allRejected.
  destruct (accepts_or_rejects V2 b) as [A1|R1].
  { rewrite (H1 A1). unfold accepts, rejects in *. intuition congruence. }
  destruct (accepts_or_rejects OCIm b) as [A2|R2].
  { rewrite (H2 R1 A2). unfold accepts, rejects in *. intuition congruence. }
  destruct (accepts_or_rejects V2L b) as [A3|R3].
  { rewrite (H3 R1 R2 A3). unfold accepts, rejects in *. intuition congruence. }
  rewrite (H4 R1 R2 R3). unfold accepts, rejects in *. intuition congruence.
Qed.

(** X5: an error of [ParseManifest] is a read error or the error of the
    OCI index attempt, so its message starts with [read: ],
    [unmarshal oci index: ] or [parse digest: ].  The errors of the first
    three attempts, those of the version checks and of the type assertions
    among them, are discarded; when the bytes were read, all four attempts
    were made before the error is returned. *)
Theorem ParseManifest_error_forms (r : io.Reader) (e : error) :
  errOf (returned (Resolve r)) = Some e ->
  (exists cause,
     e = "read: " ++ cause \/
     e = "unmarshal oci index: " ++ cause \/
     e = "parse digest: " ++ cause) /\
  (forall b, io.ReadAll r = (b, None) ->
     errOf (returned (OCIi b)) = Some e /\
     calls (Resolve r) = tried 4 b).
Proof.
  intros He.
  destruct (io.ReadAll r) as [p [e0|]] eqn:HR.
  - split; [|discriminate].
    unfold returned in He. rewrite (ParseManifest_read_error U P r p e0 HR) in He.
    inversion He. exists e0. now left.
  - assert (HA : errOf (returned (OCIi p)) = Some e /\
                 calls (Resolve r) = tried 4 p).
    { unfold returned at 1 in He. unfold calls.
      rewrite (ParseManifest_chain U P r p HR) in *.
      destruct (errOf (returned (V2 p))) as [e1|] eqn:E1; cbn [isNil] in *;
        [|simpl in He; congruence].
      destruct (errOf (returned (OCIm p))) as [e2|] eqn:E2; cbn [isNil] in *;
        [|simpl in He; congruence].
      destruct (errOf (returned (V2L p))) as [e3|] eqn:E3; cbn [isNil] in *;
        [|simpl in He; congruence].
      simpl in He. now split. }
    split.
    + destruct (ParseOCIIndex_error U P p e (proj1 HA)) as [cause [Hc|Hc]];
        exists cause; tauto.
    + intros b Hb. inversion Hb. subst b. exact HA.
Qed.

(** X6: each of the four parse functions calls the unmarshaller exactly
    once, with its own media type and the bytes it was given, whether it
    then succeeds or fails at the type assertion, the version check or the
    digest. *)
Theorem parse_functions_call_once (b : bytes) (t : list Call) :
  snd (V2 b t) = (t ++ [(schema2.MediaTypeManifest, b)])%list /\
  snd (OCIm b t) = (t ++ [(_ociManifestType, b)])%list /\
  snd (V2L b t) = (t ++ [(manifestlist.MediaTypeManifestList, b)])%list /\
  snd (OCIi b t) = (t ++ [(_ociIndexType, b)])%list.
Proof.
  rewrite ParseManifestV2_run, ParseOCIManifest_run, ParseManifestV2List_run,
    ParseOCIIndex_run.
  repeat split.
Qed.

(** X7: [ParseOCIIndex] asserts no type: whatever the unmarshaller hands
    back under the OCI index type, a manifest of any concrete type or a
    nil manifest, is returned with a nil error once the digest parses; and
    [ParseManifest] returns it when the first three attempts reject the
    bytes. *)
Theorem ParseOCIIndex_passes_through (r : io.Reader) (b : bytes)
  (m : option Manifest) (desc : distribution.Descriptor) (d : core.Digest) :
  U _ociIndexType b = (m, desc, None) ->
  P (distribution.Digest desc) = (d, None) ->
  returned (OCIi b) = (m, d, None) /\
  (io.ReadAll r = (b, None) ->
   rejects V2 b -> rejects OCIm b -> rejects V2L b ->
   returned (Resolve r) = (m, d, None)).
Proof.
  intros HU HP.
  pose proof (ParseOCIIndex_no_version_gate U P b m desc d HU HP) as HI.
  split; [exact HI|].
  intros HR R1 R2 R3.
  destruct (unique_acceptor U P r b HR) as (_ & _ & _ & H4).
  now rewrite (H4 R1 R2 R3).
Qed.

End Parsers.

Lemma ParseManifest_read_failure_witness :
  let r := {| io.ReadAll := (payloads.testManifestBytes, Some "unexpected EOF") |} in
  dockerutil.returned
    (dockerutil.ParseManifest vendor.Unmarshal core.ParseSHA256Digest r)
  = (None, core.zero, Some "read: unexpected EOF") /\
  dockerutil.calls
    (dockerutil.ParseManifest vendor.Unmarshal core.ParseSHA256Digest r) = [].
Proof.
  intros r.
  destruct (ParseManifest_read_failure vendor.Unmarshal core.ParseSHA256Digest r
              payloads.testManifestBytes "unexpected EOF" eq_refl)
    as (HA & HB & _).
  split; [exact HA | exact HB].
Defined.

Lemma version_gate_messages_witness :
  fmt.decimal 3 = "3" /\
  dockerutil.returned
    (dockerutil.ParseManifestV2List vendor.Unmarshal core.ParseSHA256Digest
       payloads.manifestListV3)
  = (None, core.zero, Some ("unsupported manifest list version: " ++ fmt.decimal 3)).
Proof.
  split; [reflexivity|].
  eapply (proj2 (proj2 (version_gate_messages vendor.Unmarshal
                          core.ParseSHA256Digest payloads.manifestListV3 _ 3 _))).
  - vm_compute. reflexivity.
  - reflexivity.
  Unshelve. discriminate.
Defined.

Lemma accepted_type_and_version_witness :
  accepts (dockerutil.ParseManifestV2 vendor.Unmarshal core.ParseSHA256Digest)
    payloads.testManifestBytes /\
  exists dm,
    dockerutil.manifestOf (vendor.ParseManifest payloads.testManifestBytes)
    = Some (Schema2 dm) /\
    manifest.SchemaVersion (schema2.Versioned (schema2.Manifest_ dm)) = 2.
Proof.
  assert (HA : accepts (dockerutil.ParseManifestV2 vendor.Unmarshal
                          core.ParseSHA256Digest) payloads.testManifestBytes)
    by (vm_compute; reflexivity).
  split; [exact HA|].
  destruct (proj1 (accepted_type_and_version vendor.Unmarshal
                     core.ParseSHA256Digest payloads.testManifestBytes) HA)
    as (dm & Hm & Hv).
  exists dm. split; [|exact Hv].
  rewrite <- Hm. vm_compute. reflexivity.
Defined.

Lemma ParseManifest_succeeds_iff_witness :
  allRejected vendor.Unmarshal core.ParseSHA256Digest payloads.notJSON /\
  dockerutil.errOf (vendor.ParseManifest payloads.notJSON) <> None.
Proof.
  assert (HA : allRejected vendor.Unmarshal core.ParseSHA256Digest payloads.notJSON)
    by (repeat split; vm_compute; discriminate).
  split; [exact HA|].
  exact (proj2 (proj2 (ParseManifest_succeeds_iff vendor.Unmarshal
                         core.ParseSHA256Digest (io.NewReader payloads.notJSON)
                         payloads.notJSON eq_refl)) HA).
Defined.

(** A manifest list of version 3: the version error of the manifest list
    attempt is not what [ParseManifest] reports. *)
Lemma ParseManifest_error_forms_witness :
  dockerutil.errOf
    (dockerutil.returned
       (dockerutil.ParseManifestV2List vendor.Unmarshal core.ParseSHA256Digest
          payloads.manifestListV3))
  = Some "unsupported manifest list version: 3" /\
  exists e cause,
    dockerutil.errOf (vendor.ParseManifest payloads.manifestListV3) = Some e /\
    (e = "read: " ++ cause \/
     e = "unmarshal oci index: " ++ cause \/
     e = "parse digest: " ++ cause).
Proof.
  split; [vm_compute; reflexivity|].
  destruct (dockerutil.errOf (vendor.ParseManifest payloads.manifestListV3))
    as [e|] eqn:E; [|vm_compute in E; discriminate].
  destruct (proj1 (ParseManifest_error_forms vendor.Unmarshal core.ParseSHA256Digest
                     (io.NewReader payloads.manifestListV3) e E))
    as (cause & Hc).
  exists e, cause. split; [reflexivity | exact Hc].
Defined.

Lemma ParseOCIIndex_passes_through_witness :
  let X := vendor.Unmarshal dockerutil._ociIndexType payloads.ociIndexV3 in
  snd X = None /\
  dockerutil.returned
    (dockerutil.ParseOCIIndex vendor.Unmarshal core.ParseSHA256Digest
       payloads.ociIndexV3)
  = (fst (fst X),
     {| core.algorithm := "sha256";
        core.hex := "75e9ce37de166a9f62b641f255a35121390f888077513bf160998b69aa3845f5" |},
     None).
Proof.
  intros X. split; [vm_compute; reflexivity|].
  apply (proj1 (ParseOCIIndex_passes_through vendor.Unmarshal core.ParseSHA256Digest
                  (io.NewReader payloads.ociIndexV3) payloads.ociIndexV3
                  (fst (fst X)) (snd (fst X)) _
                  ltac:(vm_compute; reflexivity) ltac:(vm_compute; reflexivity))).
Defined.

(** * Further properties of the references *)

Section ReferenceErrors.

Variable P : string -> core.Digest * option error.

Lemma wellFormed_or_malformed (descs : list distribution.Descriptor) :
  Forall (fun desc => snd (P (distribution.Digest desc)) = None) descs \/
  Exists (fun desc => snd (P (distribution.Digest desc)) <> None) descs.
Proof.
  induction descs as [|x rest [IH|IH]].
  - left. constructor.
  - destruct (snd (P (distribution.Digest x))) as [e|] eqn:Ex.
    + right. apply Exists_cons_hd. rewrite Ex. discriminate.
    + left. now constructor.
  - right. now apply Exists_cons_tl.
Qed.

(** X8: [GetManifestReferences] returns an error exactly when the digest of
    some reference descriptor fails to parse.  With an error it returns no
    digest at all, also when earlier descriptors parsed; without one it
    returns as many digests as the manifest has references. *)
Theorem GetManifestReferences_fails_iff (m : Manifest) :
  (snd (dockerutil.GetManifestReferences P m) <> None <->
   Exists (fun desc => snd (P (distribution.Digest desc)) <> None) (References m)) /\
  (snd (dockerutil.GetManifestReferences P m) <> None ->
   fst (dockerutil.GetManifestReferences P m) = []) /\
  (snd (dockerutil.GetManifestReferences P m) = None ->
   List.length (fst (dockerutil.GetManifestReferences P m))
   = List.length (References m)).
Proof.
  unfold dockerutil.GetManifestReferences.
  destruct (wellFormed_or_malformed (References m)) as [HF|HE].
  - rewrite (referencesLoop_wellFormed P _ [] HF). simpl.
    repeat split; try congruence.
    + intros HE. apply Exists_exists in HE. destruct HE as (x & Hin & Hx).
      rewrite Forall_forall in HF. elim Hx. now apply HF.
    + intros _. now rewrite length_map.
  - destruct (first_malformed P _ HE) as (pre & desc & post & e & Hs & HF & He).
    rewrite Hs in *.
    rewrite (referencesLoop_malformed P pre post desc e [] HF He). simpl.
    repeat split; try congruence; try discriminate.
Qed.

End ReferenceErrors.

(** A manifest whose second reference carries a digest without a colon. *)
Lemma GetManifestReferences_fails_iff_witness :
  let m := Foreign "application/octet-stream" []
             [ vendor.descriptor "" 1 vendor.digestA;
               vendor.descriptor "" 2 "1a9ec845" ] in
  dockerutil.GetManifestReferences core.ParseSHA256Digest m
  = ([], Some "parse digest: DigestFormatError: malformed digest 1a9ec845").
Proof.
  intros m.
  assert (HE : snd (dockerutil.GetManifestReferences core.ParseSHA256Digest m) <> None).
  { apply (proj1 (GetManifestReferences_fails_iff core.ParseSHA256Digest m)).
    apply Exists_cons_tl, Exists_cons_hd. vm_compute. discriminate. }
  vm_compute. reflexivity.
Defined.

(** * Further properties of the closer helper *)

Section CloserCalls.

Variable R : Type.

(** X9: an already-closed error that carries a file name, of the form
    [close <name>: file already closed], is none of the two messages the
    helper compares with, for any name: it is logged as an error with a
    stack, not as the harmless debug entry. *)
Theorem named_already_closed_logged_as_error (c : closers.Closer R)
  (st : closers.State R) (name : string) :
  fst (closers.Close_ c (closers.heap st))
  = Some ("close " ++ name ++ ": file already closed") ->
  closers.events (snd (closers.Close (Some c) st))
  = (closers.events st ++
     [ closers.CloseCalled;
       closers.Logged
         {| zap.level := zap.ErrorLevel;
            zap.msg := "failed to close a closer";
            zap.fields :=
              [ zap.Error ("close " ++ name ++ ": file already closed")%string;
                zap.Stack "stack" ] |} ])%list.
Proof.
  intros He. rewrite Close_effects, He. simpl.
  unfold closers.entryFor. simpl.
  destruct name; reflexivity.
Qed.

(** X10: the helper keeps no record of what it closed.  Calling it twice
    with the same closer returns normally, calls the closer's [Close] both
    times, the second time on the resources the first call left, and adds
    at most one log entry per call. *)
Theorem Close_twice (c : closers.Closer R) (st : closers.State R) :
  let twice :=
    closers.bind R (closers.Close (Some c)) (fun _ => closers.Close (Some c)) st in
  let isCall := fun ev =>
    match ev with closers.CloseCalled => true | closers.Logged _ => false end in
  let isLog := fun ev =>
    match ev with closers.CloseCalled => false | closers.Logged _ => true end in
  fst twice = Returned tt /\
  closers.heap (snd twice)
  = snd (closers.Close_ c (snd (closers.Close_ c (closers.heap st)))) /\
  List.length (filter isCall (closers.events (snd twice)))
  = (List.length (filter isCall (closers.events st)) + 2)%nat /\
  (List.length (filter isLog (closers.events (snd twice)))
   <= List.length (filter isLog (closers.events st)) + 2)%nat.
Proof.
  intros twice isCall isLog. subst twice. unfold closers.bind.
  destruct (closers.Close (Some c) st) as [o st1] eqn:E1.
  assert (Ho : o = Returned tt)
    by (rewrite <- (Close_returns R (Some c) st); now rewrite E1).
  assert (Hs : st1 = snd (closers.Close (Some c) st)) by now rewrite E1.
  subst o. rewrite (Close_effects R c st) in Hs.
  split; [apply Close_returns|].
  rewrite (Close_effects R c st1). subst st1. simpl.
  split; [reflexivity|].
  rewrite !filter_app, !length_app. simpl.
  destruct (fst (closers.Close_ c (closers.heap st)));
    destruct (fst (closers.Close_ c (snd (closers.Close_ c (closers.heap st)))));
    simpl; lia.
Qed.

End CloserCalls.

Lemma named_already_closed_logged_as_error_witness :
  let st := {| closers.heap := {| closers.closed := true; closers.dirty := false |};
               closers.events := [] |} in
  closers.events (snd (closers.Close (Some (closers.fileCloser "/var/blob")) st))
  = [ closers.CloseCalled;
      closers.Logged
        {| zap.level := zap.ErrorLevel;
           zap.msg := "failed to close a closer";
           zap.fields := [ zap.Error "close /var/blob: file already closed";
                           zap.Stack "stack" ] |} ].
Proof.
  intros st.
  exact (named_already_closed_logged_as_error closers.File
           (closers.fileCloser "/var/blob") st "/var/blob" eq_refl).
Defined.

(** * The advertised media types and the attempts *)

(** X11: the media types [ParseManifest] asks the unmarshaller for are among
    the four that [GetSupportedManifestTypes] advertises, always with the
    bytes that were read; and a payload that every attempt rejects has been
    tried under each advertised type. *)
Theorem attempts_are_the_supported_types
  (U : string -> bytes -> option Manifest * distribution.Descriptor * option error)
  (P : string -> core.Digest * option error)
  (r : io.Reader) (b : bytes) :
  io.ReadAll r = (b, None) ->
  let supported :=
    [ dockerutil._v2ManifestType; dockerutil._v2ManifestListType;
      dockerutil._ociManifestType; dockerutil._ociIndexType ] in
  dockerutil.GetSupportedManifestTypes = String.concat "," supported /\
  (forall ct p,
     In (ct, p) (dockerutil.calls (dockerutil.ParseManifest U P r)) ->
     In ct supported /\ p = b) /\
  (allRejected U P b ->
   forall ct,
     In ct supported ->
     In (ct, b) (dockerutil.calls (dockerutil.ParseManifest U P r))).
Proof.
  intros HR supported. split; [reflexivity|].
  unfold dockerutil.calls. rewrite (ParseManifest_chain U P r b HR).
  split.
  - intros ct p.
    destruct (isNil _); [|destruct (isNil _); [|destruct (isNil _)]];
      simpl; intros Hin;
      repeat match goal with
      | H : _ \/ _ |- _ => destruct H as [H|H]
      | H : (_, _) = (_, _) |- _ => inversion H; clear H; subst
      | H : False |- _ => destruct H
      end; simpl; tauto.
  - intros (R1 & R2 & R3 & _) ct Hct.
    apply isNil_rejects in R1, R2, R3. rewrite R1, R2, R3.
    simpl in *.
    repeat match goal with
    | H : _ \/ _ |- _ => destruct H as [H|H]
    | H : False |- _ => destruct H
    end; subst ct; tauto.
Qed.

Lemma attempts_are_the_supported_types_witness :
  allRejected vendor.Unmarshal core.ParseSHA256Digest payloads.notJSON /\
  In (dockerutil._v2ManifestListType, payloads.notJSON)
     (dockerutil.calls
        (dockerutil.ParseManifest vendor.Unmarshal core.ParseSHA256Digest
           (io.NewReader payloads.notJSON))).
Proof.
  assert (HA : allRejected vendor.Unmarshal core.ParseSHA256Digest payloads.notJSON)
    by (repeat split; vm_compute; discriminate).
  split; [exact HA|].
  apply (proj2 (proj2 (attempts_are_the_supported_types vendor.Unmarshal
                         core.ParseSHA256Digest (io.NewReader payloads.notJSON)
                         payloads.notJSON eq_refl)) HA).
  simpl. tauto.
Defined.
